(** * FigmaStepsContext: the four-stage pipeline store, its orchestrator and
    the artifact combiner

    A shallow embedding of [src/contexts/FigmaStepsContext.tsx].

    - JavaScript strings are modelled by [string]; every character stands for
      one code unit in the range 0..255, so the white space recognised by
      [trim] and by the regular-expression class [\s] is the part of the
      ECMAScript WhiteSpace and LineTerminator sets below 256.
    - [Record<string, string>] is a [gmap string string].
    - [any]-typed document data is a record with the fields the code reads.
    - The asynchronous stage actions are run to completion one at a time; the
      collaborators and the clock are oracles supplied to each invocation, and
      an invocation yields the ordered trace of the reducer actions it
      dispatches and of the stage functions it enters. [console.error] is
      outside the model; of the DOM effects of [downloadCode] the files it
      hands over are modelled, by [downloadedFiles]. *)

From Stdlib Require Import Ascii String NArith Bool Lia DecimalString.
From stdpp Require Import base option list strings gmap.

(** ** JavaScript string primitives *)

Module JsString.

Definition LF : string := String (ascii_of_nat 10) "".
Definition DQ : string := String (ascii_of_nat 34) "".

(** WhiteSpace and LineTerminator code units below 256:
    TAB, LF, VT, FF, CR, SP and NBSP. *)
Definition is_ws (c : ascii) : bool :=
  match N_of_ascii c with
  | 9%N | 10%N | 11%N | 12%N | 13%N | 32%N | 160%N => true
  | _ => false
  end.

Definition is_empty (s : string) : bool :=
  match s with
  | EmptyString => true
  | String _ _ => false
  end.

(** ToBoolean on a string: only the empty string is falsy. *)
Definition truthy (s : string) : bool := negb (is_empty s).

Fixpoint trimStart (s : string) : string :=
  match s with
  | EmptyString => EmptyString
  | String c s' => if is_ws c then trimStart s' else s
  end.

Fixpoint trimEnd (s : string) : string :=
  match s with
  | EmptyString => EmptyString
  | String c s' =>
      let t := trimEnd s' in
      if is_ws c && is_empty t then EmptyString else String c t
  end.

(** [String.prototype.trim] *)
Definition trim (s : string) : string := trimEnd (trimStart s).

(** [drop_prefix p s] is [Some r] exactly when [s = p +:+ r]. *)
Fixpoint drop_prefix (p s : string) : option string :=
  match p with
  | EmptyString => Some s
  | String a p' =>
      match s with
      | EmptyString => None
      | String b s' => if Ascii.eqb a b then drop_prefix p' s' else None
      end
  end.

(** [String.prototype.startsWith] *)
Definition startsWith (s p : string) : bool :=
  match drop_prefix p s with Some _ => true | None => false end.

(** Split at the first occurrence of [needle]. *)
Fixpoint find_first (needle hay : string) : option (string * string) :=
  match drop_prefix needle hay with
  | Some rest => Some (EmptyString, rest)
  | None =>
      match hay with
      | EmptyString => None
      | String c hay' =>
          match find_first needle hay' with
          | Some (pre, post) => Some (String c pre, post)
          | None => None
          end
      end
  end.

(** [String.prototype.includes] *)
Definition includes (hay needle : string) : bool :=
  match find_first needle hay with Some _ => true | None => false end.

(** GetSubstitution for a string pattern: there are no captures, so only
    [$$], [$&], [$`] and [$'] are replacement patterns; every other [$] is
    literal. *)
Fixpoint getSubstitution (matched before after templ : string) : string :=
  match templ with
  | EmptyString => EmptyString
  | String c t =>
      if Ascii.eqb c "$" then
        match t with
        | EmptyString => String c EmptyString
        | String d t' =>
            if Ascii.eqb d "$" then
              String "$" (getSubstitution matched before after t')
            else if Ascii.eqb d "&" then
              matched +:+ getSubstitution matched before after t'
            else if Ascii.eqb d "`" then
              before +:+ getSubstitution matched before after t'
            else if Ascii.eqb d "'" then
              after +:+ getSubstitution matched before after t'
            else String c (getSubstitution matched before after t)
        end
      else String c (getSubstitution matched before after t)
  end.

(** [String.prototype.replace] with a string pattern and a string
    replacement: the first occurrence only. *)
Definition replace (s pat repl : string) : string :=
  match find_first pat s with
  | None => s
  | Some (before, after) =>
      before +:+ getSubstitution pat before after repl +:+ after
  end.

(** Number::toString for the non-negative integers used as counts. *)
Definition numberToString (n : N) : string :=
  NilEmpty.string_of_uint (N.to_uint n).

End JsString.

Import JsString.

(** ** The regular expressions of the source

    A backtracking matcher for the constructs the source uses: literal
    text, a character class under a greedy or a lazy star, one capturing
    group and sequencing. Alternatives are tried in the order ECMAScript
    prescribes; the first success wins. *)

Module Regex.

Inductive regex : Type :=
| Lit (l : string)
| Star (greedy : bool) (cls : ascii -> bool)
| Group (r : regex)
| Seq (r1 r2 : regex).

(** The first [length s - length rest] characters of [s]. *)
Fixpoint consumed (s rest : string) : string :=
  match s with
  | EmptyString => EmptyString
  | String c s' =>
      if Nat.leb (String.length s) (String.length rest) then EmptyString
      else String c (consumed s' rest)
  end.

Section Matcher.
Context {R : Type}.

Fixpoint star_greedy (cls : ascii -> bool) (s : string)
    (k : string -> option R) : option R :=
  match s with
  | EmptyString => k s
  | String c s' =>
      if cls c then
        match star_greedy cls s' k with
        | Some r => Some r
        | None => k s
        end
      else k s
  end.

Fixpoint star_lazy (cls : ascii -> bool) (s : string)
    (k : string -> option R) : option R :=
  match k s with
  | Some r => Some r
  | None =>
      match s with
      | EmptyString => None
      | String c s' => if cls c then star_lazy cls s' k else None
      end
  end.

(** [rmatch r s cap k]: match [r] at the head of [s], then continue with
    [k] on the remaining input and the capture of group 1. *)
Fixpoint rmatch (r : regex) (s : string) (cap : option string)
    (k : string -> option string -> option R) : option R :=
  match r with
  | Lit l =>
      match drop_prefix l s with
      | Some s' => k s' cap
      | None => None
      end
  | Star true cls => star_greedy cls s (fun s' => k s' cap)
  | Star false cls => star_lazy cls s (fun s' => k s' cap)
  | Group r1 => rmatch r1 s cap (fun s' _ => k s' (Some (consumed s s')))
  | Seq r1 r2 => rmatch r1 s cap (fun s' cap' => rmatch r2 s' cap' k)
  end.
End Matcher.

(** The result of a successful non-global [String.prototype.match]:
    the text before the match (its length is [index]), element 0 and
    element 1 of the result array. *)
Record MatchResult : Type := {
  m_before : string;
  m_0 : string;
  m_1 : option string
}.

Definition match_here (r : regex) (s : string) : option MatchResult :=
  rmatch r s None (fun rest cap =>
    Some {| m_before := EmptyString; m_0 := consumed s rest; m_1 := cap |}).

Definition shift (c : ascii) (m : MatchResult) : MatchResult :=
  {| m_before := String c (m_before m); m_0 := m_0 m; m_1 := m_1 m |}.

(** Try every start position from the left. *)
Fixpoint str_match (r : regex) (s : string) : option MatchResult :=
  match match_here r s with
  | Some m => Some m
  | None =>
      match s with
      | EmptyString => None
      | String c s' => option_map (shift c) (str_match r s')
      end
  end.

Definition any_char (_ : ascii) : bool := true.

End Regex.

Import Regex.

(** [/return\s*\(\s*([\s\S]*?)\s*\);/] *)
Definition returnRe : regex :=
  Seq (Lit "return")
 (Seq (Star true is_ws)
 (Seq (Lit "(")
 (Seq (Star true is_ws)
 (Seq (Group (Star false any_char))
 (Seq (Star true is_ws)
      (Lit ");")))))).

(** ** Data model *)

(** The part of a fetched Figma file the code reads: [file.name]. *)
Record FigmaFile : Type := {
  name : option string;
  document : string
}.

(** [metadata.componentCount] and [metadata.styleCount]. *)
Record FileMetadata : Type := {
  componentCount : option N;
  styleCount : option N
}.

(** [completeData], the bundle stage 1 assembles; [figmaData] is [any], so
    [file] and [metadata] may be missing. *)
Record FigmaData : Type := {
  file : option FigmaFile;
  metadata : option FileMetadata;
  components : string;
  styles : string;
  fileId : string;
  extractedAt : string
}.

Record StepData : Type := {
  figmaUrl : string;
  accessToken : string;
  figmaData : option FigmaData;
  svgCode : string;
  generatedTsxCode : string;
  cssCode : string;
  jsxCode : string;
  moreCssCode : string;
  finalTsxCode : string;
  finalCssCode : string
}.

Inductive Status : Type := idle | loading | success | error.

Record StepStatus : Type := {
  step1 : Status;
  step2 : Status;
  step3 : Status;
  step4 : Status
}.

Record ExpandedBlocks : Type := {
  block1 : bool;
  block2 : bool;
  block3 : bool;
  block4 : bool
}.

Record Progress : Type := {
  current : N;
  total : N;
  message : string
}.

Record UIState : Type := {
  expandedBlocks : ExpandedBlocks;
  previewMode : bool;
  errors : gmap string string;
  progress : Progress
}.

Record FigmaStepsState : Type := {
  stepData : StepData;
  stepStatus : StepStatus;
  uiState : UIState
}.

(** [Partial<T>]: [None] is an absent property, [Some v] a present one. *)
Record PartialStepData : Type := {
  p_figmaUrl : option string;
  p_accessToken : option string;
  p_figmaData : option (option FigmaData);
  p_svgCode : option string;
  p_generatedTsxCode : option string;
  p_cssCode : option string;
  p_jsxCode : option string;
  p_moreCssCode : option string;
  p_finalTsxCode : option string;
  p_finalCssCode : option string
}.

Record PartialStepStatus : Type := {
  p_step1 : option Status;
  p_step2 : option Status;
  p_step3 : option Status;
  p_step4 : option Status
}.

Record PartialUIState : Type := {
  p_expandedBlocks : option ExpandedBlocks;
  p_previewMode : option bool;
  p_errors : option (gmap string string);
  p_progress : option Progress
}.

Record PartialProgress : Type := {
  p_current : option N;
  p_total : option N;
  p_message : option string
}.

(** [keyof UIState['expandedBlocks']] *)
Inductive BlockKey : Type := k_block1 | k_block2 | k_block3 | k_block4.

Inductive FigmaStepsAction : Type :=
| SET_STEP_DATA (payload : PartialStepData)
| SET_STEP_STATUS (payload : PartialStepStatus)
| SET_UI_STATE (payload : PartialUIState)
| SET_ERROR (step : string) (err : string)
| CLEAR_ERRORS
| TOGGLE_BLOCK (payload : BlockKey)
| SET_PROGRESS (payload : PartialProgress)
| RESET_ALL.

Definition initialState : FigmaStepsState := {|
  stepData := {|
    figmaUrl := "https://www.figma.com/design/...";
    accessToken := "";
    figmaData := None;
    svgCode := "";
    generatedTsxCode := "";
    cssCode := "";
    jsxCode := "";
    moreCssCode := "";
    finalTsxCode := "";
    finalCssCode := ""
  |};
  stepStatus := {|
    step1 := idle;
    step2 := idle;
    step3 := idle;
    step4 := idle
  |};
  uiState := {|
    expandedBlocks := {|
      block1 := false;
      block2 := false;
      block3 := false;
      block4 := false
    |};
    previewMode := false;
    errors := ∅;
    progress := {| current := 0; total := 4; message := "" |}
  |}
|}.

(** ** Reducer *)

(** One property of an object spread [{...old, ...payload}]. *)
Definition spread {A : Type} (old : A) (new : option A) : A :=
  match new with
  | Some v => v
  | None => old
  end.

Definition mergeStepData (d : StepData) (p : PartialStepData) : StepData := {|
  figmaUrl := spread (figmaUrl d) (p_figmaUrl p);
  accessToken := spread (accessToken d) (p_accessToken p);
  figmaData := spread (figmaData d) (p_figmaData p);
  svgCode := spread (svgCode d) (p_svgCode p);
  generatedTsxCode := spread (generatedTsxCode d) (p_generatedTsxCode p);
  cssCode := spread (cssCode d) (p_cssCode p);
  jsxCode := spread (jsxCode d) (p_jsxCode p);
  moreCssCode := spread (moreCssCode d) (p_moreCssCode p);
  finalTsxCode := spread (finalTsxCode d) (p_finalTsxCode p);
  finalCssCode := spread (finalCssCode d) (p_finalCssCode p)
|}.

Definition mergeStepStatus (t : StepStatus) (p : PartialStepStatus)
    : StepStatus := {|
  step1 := spread (step1 t) (p_step1 p);
  step2 := spread (step2 t) (p_step2 p);
  step3 := spread (step3 t) (p_step3 p);
  step4 := spread (step4 t) (p_step4 p)
|}.

Definition mergeUIState (u : UIState) (p : PartialUIState) : UIState := {|
  expandedBlocks := spread (expandedBlocks u) (p_expandedBlocks p);
  previewMode := spread (previewMode u) (p_previewMode p);
  errors := spread (errors u) (p_errors p);
  progress := spread (progress u) (p_progress p)
|}.

Definition mergeProgress (g : Progress) (p : PartialProgress) : Progress := {|
  current := spread (current g) (p_current p);
  total := spread (total g) (p_total p);
  message := spread (message g) (p_message p)
|}.

Definition getBlock (k : BlockKey) (b : ExpandedBlocks) : bool :=
  match k with
  | k_block1 => block1 b
  | k_block2 => block2 b
  | k_block3 => block3 b
  | k_block4 => block4 b
  end.

Definition setBlock (k : BlockKey) (v : bool) (b : ExpandedBlocks)
    : ExpandedBlocks :=
  match k with
  | k_block1 => {| block1 := v; block2 := block2 b;
                   block3 := block3 b; block4 := block4 b |}
  | k_block2 => {| block1 := block1 b; block2 := v;
                   block3 := block3 b; block4 := block4 b |}
  | k_block3 => {| block1 := block1 b; block2 := block2 b;
                   block3 := v; block4 := block4 b |}
  | k_block4 => {| block1 := block1 b; block2 := block2 b;
                   block3 := block3 b; block4 := v |}
  end.

Definition withUIState (s : FigmaStepsState) (u : UIState)
    : FigmaStepsState :=
  {| stepData := stepData s; stepStatus := stepStatus s; uiState := u |}.

Definition figmaStepsReducer (state : FigmaStepsState)
    (action : FigmaStepsAction) : FigmaStepsState :=
  match action with
  | SET_STEP_DATA payload =>
      {| stepData := mergeStepData (stepData state) payload;
         stepStatus := stepStatus state;
         uiState := uiState state |}
  | SET_STEP_STATUS payload =>
      {| stepData := stepData state;
         stepStatus := mergeStepStatus (stepStatus state) payload;
         uiState := uiState state |}
  | SET_UI_STATE payload =>
      withUIState state (mergeUIState (uiState state) payload)
  | SET_ERROR step err =>
      withUIState state
        {| expandedBlocks := expandedBlocks (uiState state);
           previewMode := previewMode (uiState state);
           errors := <[step := err]> (errors (uiState state));
           progress := progress (uiState state) |}
  | CLEAR_ERRORS =>
      withUIState state
        {| expandedBlocks := expandedBlocks (uiState state);
           previewMode := previewMode (uiState state);
           errors := ∅;
           progress := progress (uiState state) |}
  | TOGGLE_BLOCK payload =>
      withUIState state
        {| expandedBlocks :=
             setBlock payload
               (negb (getBlock payload (expandedBlocks (uiState state))))
               (expandedBlocks (uiState state));
           previewMode := previewMode (uiState state);
           errors := errors (uiState state);
           progress := progress (uiState state) |}
  | SET_PROGRESS payload =>
      withUIState state
        {| expandedBlocks := expandedBlocks (uiState state);
           previewMode := previewMode (uiState state);
           errors := errors (uiState state);
           progress := mergeProgress (progress (uiState state)) payload |}
  | RESET_ALL => initialState
  end.

(** ** Artifact combiner *)

(** [x || 'Unknown'] on an optional string *)
Definition orUnknown (x : option string) : string :=
  match x with
  | Some s => if truthy s then s else "Unknown"
  | None => "Unknown"
  end.

(** [x || 0] on an optional number, then template interpolation *)
Definition orZero (x : option N) : string :=
  match x with
  | Some n => if N.eqb n 0 then "0" else numberToString n
  | None => "0"
  end.

(** [figmaData.file?.name] *)
Definition fileName (fd : FigmaData) : option string :=
  match file fd with
  | Some f => name f
  | None => None
  end.

Definition tsxMetadata (now : string) (fd : FigmaData) : string :=
  "/*" +:+ LF +:+
  " * Generated from Figma Design" +:+ LF +:+
  " * File: " +:+ orUnknown (fileName fd) +:+ LF +:+
  " * Generated: " +:+ now +:+ LF +:+
  " * Components: " +:+ orZero (mbind componentCount (metadata fd)) +:+ LF +:+
  " * Styles: " +:+ orZero (mbind styleCount (metadata fd)) +:+ LF +:+
  " */" +:+ LF +:+
  LF.

(** The replacement text when the original JSX starts with [<svg]. *)
Definition fragmentReturn (originalJsx manualJsx : string) : string :=
  "return (" +:+
  (LF +:+
   "    <React.Fragment>" +:+ LF +:+
   "      " +:+ originalJsx +:+ LF +:+
   "      {/* Additional JSX */}" +:+ LF +:+
   "      " +:+ manualJsx +:+ LF +:+
   "    </React.Fragment>") +:+
  LF +:+ "  );".

(** The replacement text otherwise. *)
Definition appendedReturn (originalJsx manualJsx : string) : string :=
  "return (" +:+ LF +:+ "    " +:+
  (originalJsx +:+ LF +:+
   "      {/* Additional JSX */}" +:+ LF +:+
   "      " +:+ manualJsx) +:+
  LF +:+ "  );".

(** [returnMatch[1]]; group 1 takes part in every match of [returnRe]
    (lemma [returnRe_group1]), so the default is never used. *)
Definition group1 (m : MatchResult) : string :=
  match m_1 m with
  | Some g => g
  | None => ""
  end.

(** The [if (manualJsx.trim())] block. *)
Definition spliceManualJsx (generatedTsx manualJsx : string) : string :=
  if truthy (trim manualJsx) then
    match str_match returnRe generatedTsx with
    | Some returnMatch =>
        let originalJsx := trim (group1 returnMatch) in
        if startsWith originalJsx "<svg" then
          replace generatedTsx (m_0 returnMatch)
            (fragmentReturn originalJsx manualJsx)
        else
          replace generatedTsx (m_0 returnMatch)
            (appendedReturn originalJsx manualJsx)
    | None => generatedTsx
    end
  else generatedTsx.

(** [now] is the value of [new Date().toISOString()]. *)
Definition combineCodePieces (now : string) (generatedTsx manualJsx : string)
    (figmaData : option FigmaData) : string :=
  let finalCode := spliceManualJsx generatedTsx manualJsx in
  match figmaData with
  | Some fd => tsxMetadata now fd +:+ finalCode
  | None => finalCode
  end.

Definition cssHeader (now : string) (figmaData : option FigmaData) : string :=
  match figmaData with
  | Some fd =>
      "/*" +:+ LF +:+
      " * Styles for Figma Component: " +:+ orUnknown (fileName fd) +:+ LF +:+
      " * Generated: " +:+ now +:+ LF +:+
      " */" +:+ LF +:+
      LF
  | None => ""
  end.

Definition baseStylesHeader : string := "/* Base Styles */".
Definition additionalStylesHeader : string := "/* Additional Styles */".

Definition baseSection (baseCss : string) : string :=
  if truthy (trim baseCss) then
    baseStylesHeader +:+ LF +:+ baseCss +:+ LF +:+ LF
  else "".

Definition additionalSection (additionalCss : string) : string :=
  if truthy (trim additionalCss) then
    additionalStylesHeader +:+ LF +:+ additionalCss +:+ LF +:+ LF
  else "".

Definition responsiveUtilities : string :=
  "/* Responsive Utilities */" +:+ LF +:+
  "@media (max-width: 768px) {" +:+ LF +:+
  "  .figma-component {" +:+ LF +:+
  "    padding: 1rem;" +:+ LF +:+
  "  }" +:+ LF +:+
  "}" +:+ LF +:+
  LF +:+
  "@media (max-width: 480px) {" +:+ LF +:+
  "  .figma-component {" +:+ LF +:+
  "    padding: 0.5rem;" +:+ LF +:+
  "  }" +:+ LF +:+
  "}".

Definition combineCssCode (now : string) (baseCss additionalCss : string)
    (figmaData : option FigmaData) : string :=
  ((cssHeader now figmaData +:+ baseSection baseCss)
     +:+ additionalSection additionalCss)
    +:+ responsiveUtilities.

(** ** Stage orchestrator *)

(** A thrown JavaScript value: an [Error] carrying a message, or anything
    that is not an [instanceof Error]. *)
Inductive Thrown : Type :=
| ErrorObj (msg : string)
| NonError.

(** The stage functions of the provider. *)
Inductive Call : Type :=
| CallConnectToFigma
| CallAutoGenerateSvg (figmaData : FigmaData) (fileId : string)
| CallGenerateSvgCode (svgContent : option string)
| CallSaveCssCode
| CallGenerateFinalCode
| CallDownloadCode.

Inductive Event : Type :=
| Dispatch (a : FigmaStepsAction)
| Enter (c : Call).

(** A computation that emits events and either returns or throws. *)
Definition M (A : Type) : Type := (list Event * (Thrown + A))%type.

Global Instance M_ret : MRet M := fun A a => ([], inr a).

Global Instance M_bind : MBind M := fun A B f m =>
  match m with
  | (tr, inl e) => (tr, inl e)
  | (tr, inr a) => let '(tr', r) := f a in (tr ++ tr', r)
  end.

Definition andThen {A : Type} (m : M unit) (k : M A) : M A := m ≫= fun _ => k.

Local Notation "m ;; k" := (andThen m k) (at level 100, k at level 200,
  right associativity).

Definition dispatch (a : FigmaStepsAction) : M unit := ([Dispatch a], inr tt).
Definition enter (c : Call) : M unit := ([Enter c], inr tt).
Definition throw {A : Type} (e : Thrown) : M A := ([], inl e).

(** Awaiting a collaborator: its outcome is given by the oracle. *)
Definition await {A : Type} (outcome : Thrown + A) : M A := ([], outcome).

Definition try_catch (body : M unit) (handler : Thrown -> M unit) : M unit :=
  match body with
  | (tr, inr a) => (tr, inr a)
  | (tr, inl e) => let '(tr', r) := handler e in (tr ++ tr', r)
  end.

Fixpoint forEach {A : Type} (f : A -> M unit) (l : list A) : M unit :=
  match l with
  | [] => mret tt
  | x :: l' => f x ;; forEach f l'
  end.

(** The result of [figmaApiService.validateFigmaUrl]. *)
Record Validation : Type := {
  valid : bool;
  v_fileId : option string;
  v_error : option string
}.

(** The collaborators and the clock, as oracles for one invocation.
    [generateCode] also yields the statuses it reports through its progress
    callback before it settles; [clock n] is the [n]-th value of
    [new Date().toISOString()] read by the invocation. *)
Record Env : Type := {
  validateFigmaUrl : string -> Thrown + Validation;
  fetchFigmaFile : string -> string -> Thrown + FigmaFile;
  getFileMetadata : string -> string -> Thrown + FileMetadata;
  getFileComponents : string -> string -> Thrown + string;
  getFileStyles : string -> string -> Thrown + string;
  extractSVGFromFigma : option FigmaFile -> Thrown + string;
  transformer : string -> Thrown + string;
  generateCode : option FigmaFile -> list string * (Thrown + string);
  clock : nat -> string
}.

(** *** Payload literals *)

(** [{ figmaData: d }] *)
Definition data_figmaData (d : FigmaData) : PartialStepData := {|
  p_figmaUrl := None; p_accessToken := None; p_figmaData := Some (Some d);
  p_svgCode := None; p_generatedTsxCode := None; p_cssCode := None;
  p_jsxCode := None; p_moreCssCode := None; p_finalTsxCode := None;
  p_finalCssCode := None |}.

(** [{ svgCode: svg }] *)
Definition data_svgCode (svg : string) : PartialStepData := {|
  p_figmaUrl := None; p_accessToken := None; p_figmaData := None;
  p_svgCode := Some svg; p_generatedTsxCode := None; p_cssCode := None;
  p_jsxCode := None; p_moreCssCode := None; p_finalTsxCode := None;
  p_finalCssCode := None |}.

(** [{ svgCode: svg, generatedTsxCode: tsx }] *)
Definition data_svg_tsx (svg tsx : string) : PartialStepData := {|
  p_figmaUrl := None; p_accessToken := None; p_figmaData := None;
  p_svgCode := Some svg; p_generatedTsxCode := Some tsx; p_cssCode := None;
  p_jsxCode := None; p_moreCssCode := None; p_finalTsxCode := None;
  p_finalCssCode := None |}.

(** [{ finalTsxCode: tsx, finalCssCode: css }] *)
Definition data_final (tsx css : string) : PartialStepData := {|
  p_figmaUrl := None; p_accessToken := None; p_figmaData := None;
  p_svgCode := None; p_generatedTsxCode := None; p_cssCode := None;
  p_jsxCode := None; p_moreCssCode := None; p_finalTsxCode := Some tsx;
  p_finalCssCode := Some css |}.

Definition status_step1 (v : Status) : PartialStepStatus :=
  {| p_step1 := Some v; p_step2 := None; p_step3 := None; p_step4 := None |}.
Definition status_step2 (v : Status) : PartialStepStatus :=
  {| p_step1 := None; p_step2 := Some v; p_step3 := None; p_step4 := None |}.
Definition status_step3 (v : Status) : PartialStepStatus :=
  {| p_step1 := None; p_step2 := None; p_step3 := Some v; p_step4 := None |}.
Definition status_step4 (v : Status) : PartialStepStatus :=
  {| p_step1 := None; p_step2 := None; p_step3 := None; p_step4 := Some v |}.

(** [{ current: c, message: m }] *)
Definition progress_at (c : N) (m : string) : PartialProgress :=
  {| p_current := Some c; p_total := None; p_message := Some m |}.

(** [{ message: m }] *)
Definition progress_msg (m : string) : PartialProgress :=
  {| p_current := None; p_total := None; p_message := Some m |}.

(** *** Basic actions *)

Definition setStepData (data : PartialStepData) : M unit :=
  dispatch (SET_STEP_DATA data).
Definition setStepStatus (status : PartialStepStatus) : M unit :=
  dispatch (SET_STEP_STATUS status).
Definition setUIState (ui : PartialUIState) : M unit :=
  dispatch (SET_UI_STATE ui).
Definition setError (step err : string) : M unit :=
  dispatch (SET_ERROR step err).
Definition clearErrors : M unit := dispatch CLEAR_ERRORS.
Definition toggleBlock (block : BlockKey) : M unit :=
  dispatch (TOGGLE_BLOCK block).
Definition setProgress (p : PartialProgress) : M unit :=
  dispatch (SET_PROGRESS p).
Definition resetAll : M unit := dispatch RESET_ALL.

(** *** Messages *)

Definition msgMissingCredentials : string :=
  "Please provide both Figma URL and Access Token".

Definition msgAccessDenied : string :=
  "Access denied. This Figma file requires authentication. Please provide a valid Figma Personal Access Token. You can generate one from your Figma account settings under "
  +:+ DQ +:+ "Personal access tokens" +:+ DQ +:+ ".".

Definition msgNotFound : string :=
  "Figma file not found. Please check if the file exists and the URL is correct.".

Definition msgInvalidToken : string :=
  "Invalid or expired access token. Please check your Figma Personal Access Token and try again.".

Definition msgRateLimit : string :=
  "Rate limit exceeded. Please wait a moment and try again.".

(** The message chosen by the [catch] block of [connectToFigma]. *)
Definition connectErrorMessage (e : Thrown) : string :=
  match e with
  | ErrorObj m =>
      if includes m "Access denied" || includes m "403" then msgAccessDenied
      else if includes m "404" then msgNotFound
      else if includes m "401" then msgInvalidToken
      else if includes m "429" then msgRateLimit
      else m
  | NonError => "Connection failed"
  end.

(** The message chosen by the [catch] block of [generateSvgCode]. *)
Definition svgErrorMessage (e : Thrown) : string :=
  match e with
  | ErrorObj m =>
      if includes m "Invalid SVG" then
        m +:+ ". Please ensure your input contains valid SVG elements like <svg>, <path>, <rect>, etc."
      else if includes m "parsing" then
        "SVG parsing failed. Please check your SVG syntax and try again."
      else m
  | NonError => "SVG conversion failed"
  end.

(** [error instanceof Error ? error.message : fallback] *)
Definition messageOr (e : Thrown) (fallback : string) : string :=
  match e with
  | ErrorObj m => m
  | NonError => fallback
  end.

(** [x || fallback] on an optional string *)
Definition orElse (x : option string) (fallback : string) : string :=
  match x with
  | Some s => if truthy s then s else fallback
  | None => fallback
  end.

(** *** Stage 2 *)

(** [state] is the state captured by the closure that runs. *)
Definition generateSvgCode (env : Env) (state : FigmaStepsState)
    (svgContent : option string) : M unit :=
  enter (CallGenerateSvgCode svgContent) ;;
  let svg := orElse svgContent (svgCode (stepData state)) in
  if negb (truthy (trim svg)) then
    setError "step2" "Please provide SVG code"
  else
    setStepStatus (status_step2 loading) ;;
    clearErrors ;;
    setProgress (progress_at 2 "Converting SVG to TSX...") ;;
    try_catch
      ((if negb (includes svg "<svg") && negb (includes svg "<path")
           && negb (includes svg "<rect") && negb (includes svg "<circle")
        then throw (ErrorObj
               "Invalid SVG: No SVG elements found in the provided code")
        else mret tt) ;;
       setProgress (progress_msg "Parsing SVG structure...") ;;
       tsxCode ← await (transformer env svg);
       setStepData (data_svg_tsx svg tsxCode) ;;
       setStepStatus (status_step2 success) ;;
       setProgress (progress_msg "TSX code generated successfully!"))
      (fun e =>
         setError "step2" (svgErrorMessage e) ;;
         setStepStatus (status_step2 error) ;;
         setProgress (progress_msg "SVG conversion failed")).

(** [autoGenerateSvg] is memoised on the stable basic actions only, so it is
    the callback of the first render for the life of the provider, and the
    [generateSvgCode] it calls is the one that closes over the initial
    state. *)
Definition autoGenerateSvg (env : Env) (figmaData : FigmaData)
    (fileId : string) : M unit :=
  enter (CallAutoGenerateSvg figmaData fileId) ;;
  setStepStatus (status_step2 loading) ;;
  setProgress (progress_at 2 "Extracting SVG from Figma...") ;;
  try_catch
    (svgContent ← await (extractSVGFromFigma env (file figmaData));
     setStepData (data_svgCode svgContent) ;;
     setProgress (progress_msg "Converting SVG to TSX...") ;;
     generateSvgCode env initialState (Some svgContent))
    (fun e =>
       setError "step2" (messageOr e "SVG generation failed") ;;
       setStepStatus (status_step2 error) ;;
       setProgress (progress_msg "SVG generation failed")).

(** *** Stage 1 *)

Definition completeData (figmaFile : FigmaFile) (meta : FileMetadata)
    (comps stys : string) (fid : string) (now : string) : FigmaData := {|
  file := Some figmaFile;
  metadata := Some meta;
  components := comps;
  styles := stys;
  fileId := fid;
  extractedAt := now
|}.

(** The [try] block of [connectToFigma]. *)
Definition connectBody (env : Env) (figmaUrl accessToken : string) : M unit :=
  validation ← await (validateFigmaUrl env figmaUrl);
  fid ← (if negb (valid validation)
            || negb (truthy (orElse (v_fileId validation) ""))
         then throw (ErrorObj (orElse (v_error validation) "Invalid Figma URL"))
         else mret (orElse (v_fileId validation) ""));
  setProgress (progress_msg "Fetching Figma file data...") ;;
  figmaFile ← await (fetchFigmaFile env fid accessToken);
  setProgress (progress_msg "Getting metadata...") ;;
  meta ← await (getFileMetadata env fid accessToken);
  comps ← await (getFileComponents env fid accessToken);
  stys ← await (getFileStyles env fid accessToken);
  let data := completeData figmaFile meta comps stys fid (clock env 0) in
  setStepData (data_figmaData data) ;;
  setStepStatus (status_step1 success) ;;
  setProgress (progress_msg "Connection successful!") ;;
  autoGenerateSvg env data fid.

(** The [catch] block of [connectToFigma]. *)
Definition connectHandler (e : Thrown) : M unit :=
  setError "step1" (connectErrorMessage e) ;;
  setStepStatus (status_step1 error) ;;
  setProgress (progress_msg "Connection failed").

Definition connectToFigma (env : Env) (state : FigmaStepsState) : M unit :=
  enter CallConnectToFigma ;;
  let figmaUrl := figmaUrl (stepData state) in
  let accessToken := accessToken (stepData state) in
  if negb (truthy (trim figmaUrl)) || negb (truthy (trim accessToken)) then
    setError "step1" msgMissingCredentials
  else
    setStepStatus (status_step1 loading) ;;
    clearErrors ;;
    setProgress (progress_at 1 "Connecting to Figma...") ;;
    try_catch (connectBody env figmaUrl accessToken) connectHandler.

(** *** Stage 3 *)

Definition saveCssCode (state : FigmaStepsState) : M unit :=
  enter CallSaveCssCode ;;
  if negb (truthy (trim (cssCode (stepData state)))) then
    setError "step3" "Please provide CSS code"
  else
    setStepStatus (status_step3 success) ;;
    clearErrors ;;
    setProgress (progress_at 3 "CSS code saved successfully!").

(** *** Stage 4 *)

Definition generateFinalCode (env : Env) (state : FigmaStepsState) : M unit :=
  enter CallGenerateFinalCode ;;
  let jsxCode := jsxCode (stepData state) in
  let moreCssCode := moreCssCode (stepData state) in
  if negb (truthy (trim jsxCode)) && negb (truthy (trim moreCssCode)) then
    setError "step4" "Please provide JSX or additional CSS code"
  else
    setStepStatus (status_step4 loading) ;;
    clearErrors ;;
    setProgress (progress_at 4 "Generating final code...") ;;
    try_catch
      (setProgress (progress_msg "Optimizing code...") ;;
       let '(reported, outcome) :=
         generateCode env (mbind file (figmaData (stepData state))) in
       forEach (fun status => setProgress (progress_msg status)) reported ;;
       _ ← await outcome;
       setProgress (progress_msg "Combining code pieces...") ;;
       let finalTsx :=
         combineCodePieces (clock env 0)
           (generatedTsxCode (stepData state))
           jsxCode
           (figmaData (stepData state)) in
       let finalCss :=
         combineCssCode (clock env 1)
           (cssCode (stepData state))
           moreCssCode
           (figmaData (stepData state)) in
       setStepData (data_final finalTsx finalCss) ;;
       setStepStatus (status_step4 success) ;;
       setProgress (progress_msg "Final code generated successfully!"))
      (fun e =>
         setError "step4" (messageOr e "Generation failed") ;;
         setStepStatus (status_step4 error) ;;
         setProgress (progress_msg "Generation failed")).

(** *** Export trigger *)

(** [downloadCode] dispatches nothing; its effects are on the DOM only. *)
Definition downloadCode (state : FigmaStepsState) : M unit :=
  enter CallDownloadCode.

(** ** The exposed action set *)

Inductive UserAction : Type :=
| DoSetStepData (data : PartialStepData)
| DoSetStepStatus (status : PartialStepStatus)
| DoSetUIState (ui : PartialUIState)
| DoSetError (step err : string)
| DoClearErrors
| DoToggleBlock (block : BlockKey)
| DoSetProgress (p : PartialProgress)
| DoResetAll
| DoConnectToFigma (env : Env)
| DoGenerateSvgCode (env : Env) (svgContent : option string)
| DoSaveCssCode
| DoGenerateFinalCode (env : Env)
| DoDownloadCode.

(** The invocation of an exposed action by the view, in state [state]. *)
Definition perform (state : FigmaStepsState) (a : UserAction) : M unit :=
  match a with
  | DoSetStepData data => setStepData data
  | DoSetStepStatus status => setStepStatus status
  | DoSetUIState ui => setUIState ui
  | DoSetError step err => setError step err
  | DoClearErrors => clearErrors
  | DoToggleBlock block => toggleBlock block
  | DoSetProgress p => setProgress p
  | DoResetAll => resetAll
  | DoConnectToFigma env => connectToFigma env state
  | DoGenerateSvgCode env svgContent => generateSvgCode env state svgContent
  | DoSaveCssCode => saveCssCode state
  | DoGenerateFinalCode env => generateFinalCode env state
  | DoDownloadCode => downloadCode state
  end.

Definition trace {A : Type} (m : M A) : list Event := fst m.

(** The reducer actions of a trace, in order. *)
Fixpoint dispatched (tr : list Event) : list FigmaStepsAction :=
  match tr with
  | [] => []
  | Dispatch a :: tr' => a :: dispatched tr'
  | Enter _ :: tr' => dispatched tr'
  end.

(** The function calls of a trace, in order. *)
Fixpoint entered (tr : list Event) : list Call :=
  match tr with
  | [] => []
  | Dispatch _ :: tr' => entered tr'
  | Enter c :: tr' => c :: entered tr'
  end.

Definition reduceAll (state : FigmaStepsState)
    (acts : list FigmaStepsAction) : FigmaStepsState :=
  foldl figmaStepsReducer state acts.

(** The store after one exposed action has run to completion. *)
Definition runAction (state : FigmaStepsState) (a : UserAction)
    : FigmaStepsState :=
  reduceAll state (dispatched (trace (perform state a))).

Definition runActions (state : FigmaStepsState) (acts : list UserAction)
    : FigmaStepsState :=
  foldl runAction state acts.

(** Every store state an action sequence passes through, dispatch by
    dispatch, the start state first. *)
Fixpoint statesAlong (state : FigmaStepsState)
    (acts : list FigmaStepsAction) : list FigmaStepsState :=
  match acts with
  | [] => [state]
  | a :: acts' => state :: statesAlong (figmaStepsReducer state a) acts'
  end.

(** The store transitions of a dispatch sequence: each state paired with
    its successor. *)
Fixpoint transitions (state : FigmaStepsState)
    (acts : list FigmaStepsAction)
    : list (FigmaStepsState * FigmaStepsState) :=
  match acts with
  | [] => []
  | a :: acts' =>
      let state' := figmaStepsReducer state a in
      (state, state') :: transitions state' acts'
  end.

(** The store transitions of a sequence of exposed actions. *)
Fixpoint transitionsOf (state : FigmaStepsState) (acts : list UserAction)
    : list (FigmaStepsState * FigmaStepsState) :=
  match acts with
  | [] => []
  | a :: acts' =>
      let ds := dispatched (trace (perform state a)) in
      transitions state ds ++ transitionsOf (reduceAll state ds) acts'
  end.

(** *** Sample oracles *)

Definition sampleFile : FigmaFile :=
  {| name := Some "Landing"; document := "{}" |}.

Definition sampleMetadata : FileMetadata :=
  {| componentCount := Some 3%N; styleCount := None |}.

(** Every collaborator succeeds. *)
Definition okEnv : Env := {|
  validateFigmaUrl := fun _ =>
    inr {| valid := true; v_fileId := Some "abc"; v_error := None |};
  fetchFigmaFile := fun _ _ => inr sampleFile;
  getFileMetadata := fun _ _ => inr sampleMetadata;
  getFileComponents := fun _ _ => inr "[]";
  getFileStyles := fun _ _ => inr "[]";
  extractSVGFromFigma := fun _ => inr "<svg></svg>";
  transformer := fun _ => inr "const C = () => { return (<svg/>); }";
  generateCode := fun _ => (["half"; "done"], inr "code");
  clock := fun _ => "2024-01-01T00:00:00.000Z"
|}.

(** [fetchFigmaFile] rejects with an [Error] carrying [msg]. *)
Definition fetchFailsEnv (msg : string) : Env := {|
  validateFigmaUrl := validateFigmaUrl okEnv;
  fetchFigmaFile := fun _ _ => inl (ErrorObj msg);
  getFileMetadata := getFileMetadata okEnv;
  getFileComponents := getFileComponents okEnv;
  getFileStyles := getFileStyles okEnv;
  extractSVGFromFigma := extractSVGFromFigma okEnv;
  transformer := transformer okEnv;
  generateCode := generateCode okEnv;
  clock := clock okEnv
|}.

Definition withCredentials (url token : string) : PartialStepData := {|
  p_figmaUrl := Some url; p_accessToken := Some token; p_figmaData := None;
  p_svgCode := None; p_generatedTsxCode := None; p_cssCode := None;
  p_jsxCode := None; p_moreCssCode := None; p_finalTsxCode := None;
  p_finalCssCode := None |}.

Definition readyState : FigmaStepsState :=
  figmaStepsReducer initialState
    (SET_STEP_DATA (withCredentials "https://www.figma.com/design/abc" "tok")).

(** ** Vocabulary of the properties *)

(** What an object spread leaves in a property: the payload's value when
    the payload has the property, the prior value when it has not. *)
Definition merged {A : Type} (old : A) (payload : option A) (new : A) : Prop :=
  match payload with
  | Some v => new = v
  | None => new = old
  end.

Definition isAutoCall (c : Call) : bool :=
  match c with
  | CallAutoGenerateSvg _ _ => true
  | _ => false
  end.

Definition isStage3Or4Call (c : Call) : bool :=
  match c with
  | CallSaveCssCode | CallGenerateFinalCode => true
  | _ => false
  end.

(** The event is a dispatch that writes [success] to step1. *)
Definition writesStep1Success (e : Event) : bool :=
  match e with
  | Dispatch (SET_STEP_STATUS p) =>
      match p_step1 p with
      | Some success => true
      | _ => false
      end
  | _ => false
  end.

(** The action writes no status of stage 3 or stage 4. *)
Definition sparesStage3And4 (a : FigmaStepsAction) : bool :=
  match a with
  | SET_STEP_STATUS p =>
      match p_step3 p, p_step4 p with
      | None, None => true
      | _, _ => false
      end
  | RESET_ALL => false
  | _ => true
  end.

(** The invariant of the data model, on one status: [loading] is entered
    from [idle] or [error] only, [success] and [error] from [loading]
    only. *)
Definition moveAllowed (old new : Status) : bool :=
  match new with
  | idle => true
  | loading => match old with idle | error | loading => true | _ => false end
  | success => match old with loading | success => true | _ => false end
  | error => match old with loading | error => true | _ => false end
  end.

Definition allowedTransition (x : FigmaStepsState * FigmaStepsState) : bool :=
  moveAllowed (step1 (stepStatus (fst x))) (step1 (stepStatus (snd x)))
  && moveAllowed (step2 (stepStatus (fst x))) (step2 (stepStatus (snd x)))
  && moveAllowed (step3 (stepStatus (fst x))) (step3 (stepStatus (snd x)))
  && moveAllowed (step4 (stepStatus (fst x))) (step4 (stepStatus (snd x))).

(** What the stage actions keep of it for stages 1, 2 and 4: [success] and
    [error] are entered from [loading] only. *)
Definition settlesFromLoading (old new : Status) : bool :=
  match new with
  | success => match old with loading | success => true | _ => false end
  | error => match old with loading | error => true | _ => false end
  | _ => true
  end.

(** Stage 3 never enters [loading] or [error]. *)
Definition stage3Move (old new : Status) : bool :=
  match new with
  | loading => match old with loading => true | _ => false end
  | error => match old with error => true | _ => false end
  | _ => true
  end.

Definition statusesDisciplined (t t' : StepStatus) : bool :=
  settlesFromLoading (step1 t) (step1 t')
  && settlesFromLoading (step2 t) (step2 t')
  && stage3Move (step3 t) (step3 t')
  && settlesFromLoading (step4 t) (step4 t').

Definition disciplinedTransition (x : FigmaStepsState * FigmaStepsState)
    : bool :=
  statusesDisciplined (stepStatus (fst x)) (stepStatus (snd x)).

Definition isSetStepStatus (a : UserAction) : bool :=
  match a with
  | DoSetStepStatus _ => true
  | _ => false
  end.

(** The effect of a reducer action on the statuses alone. *)
Definition statusAfter (t : StepStatus) (a : FigmaStepsAction) : StepStatus :=
  match a with
  | SET_STEP_STATUS p => mergeStepStatus t p
  | RESET_ALL => stepStatus initialState
  | _ => t
  end.

Fixpoint statusRun (t : StepStatus) (acts : list FigmaStepsAction) : bool :=
  match acts with
  | [] => true
  | a :: acts' =>
      statusesDisciplined t (statusAfter t a)
      && statusRun (statusAfter t a) acts'
  end.

Definition statusEnd (t : StepStatus) (acts : list FigmaStepsAction)
    : StepStatus :=
  foldl statusAfter t acts.

(** [c] does not occur in [s]. *)
Fixpoint lacks (c : ascii) (s : string) : bool :=
  match s with
  | EmptyString => true
  | String d s' => negb (Ascii.eqb d c) && lacks c s'
  end.

Definition sampleData : FigmaData :=
  completeData sampleFile sampleMetadata "[]" "[]" "abc"
    "2024-01-01T00:00:00.000Z".

Fixpoint has_group (r : regex) : bool :=
  match r with
  | Group _ => true
  | Seq r1 r2 => has_group r1 || has_group r2
  | _ => false
  end.

(** ** Further vocabulary *)

(** The branch of the state a reducer action writes; [RESET_ALL] replaces
    all three. *)
Inductive Branch : Type := InStepData | InStepStatus | InUIState.

Definition branchOf (a : FigmaStepsAction) : option Branch :=
  match a with
  | SET_STEP_DATA _ => Some InStepData
  | SET_STEP_STATUS _ => Some InStepStatus
  | SET_UI_STATE _ | SET_ERROR _ _ | CLEAR_ERRORS | TOGGLE_BLOCK _
  | SET_PROGRESS _ => Some InUIState
  | RESET_ALL => None
  end.

Definition isToggle (a : FigmaStepsAction) : bool :=
  match a with
  | TOGGLE_BLOCK _ => true
  | _ => false
  end.

(** The business-logic actions of the context, as opposed to the basic
    store actions. *)
Definition isStageAction (a : UserAction) : bool :=
  match a with
  | DoConnectToFigma _ | DoGenerateSvgCode _ _ | DoSaveCssCode
  | DoGenerateFinalCode _ | DoDownloadCode => true
  | _ => false
  end.

Definition absent {A : Type} (x : option A) : bool :=
  match x with
  | None => true
  | Some _ => false
  end.

(** The action leaves what the user typed and toggled alone: the URL, the
    token, the three hand-written code fields, the panel flags, the preview
    mode and the progress total. *)
Definition keepsInputs (a : FigmaStepsAction) : bool :=
  match a with
  | SET_STEP_DATA p =>
      absent (p_figmaUrl p) && absent (p_accessToken p)
      && absent (p_cssCode p) && absent (p_jsxCode p)
      && absent (p_moreCssCode p)
  | SET_PROGRESS p => absent (p_total p)
  | SET_UI_STATE _ | TOGGLE_BLOCK _ | RESET_ALL => false
  | _ => true
  end.

(** [svg.includes('<svg') || ... || svg.includes('<circle')], the negation
    of the guard that throws [Invalid SVG]. *)
Definition hasSvgElement (svg : string) : bool :=
  includes svg "<svg" || includes svg "<path"
  || includes svg "<rect" || includes svg "<circle".

(** A file handed to the browser by [downloadCode]: the [download] name of
    the link, the type of the blob and its content. *)
Record Download : Type := {
  d_name : string;
  d_type : string;
  d_content : string
}.

(** The files [downloadCode] makes the browser save, in order. *)
Definition downloadedFiles (state : FigmaStepsState) : list Download :=
  let finalTsxCode := finalTsxCode (stepData state) in
  let finalCssCode := finalCssCode (stepData state) in
  if negb (truthy finalTsxCode) || negb (truthy finalCssCode) then []
  else
    [ {| d_name := "GeneratedComponent.tsx"; d_type := "text/plain";
         d_content := finalTsxCode |};
      {| d_name := "GeneratedComponent.css"; d_type := "text/plain";
         d_content := finalCssCode |} ].

(** Oracles that differ from [okEnv] in the two collaborators of stage 2. *)
Definition stage2Env (extract transf : Thrown + string) : Env := {|
  validateFigmaUrl := validateFigmaUrl okEnv;
  fetchFigmaFile := fetchFigmaFile okEnv;
  getFileMetadata := getFileMetadata okEnv;
  getFileComponents := getFileComponents okEnv;
  getFileStyles := getFileStyles okEnv;
  extractSVGFromFigma := fun _ => extract;
  transformer := fun _ => transf;
  generateCode := generateCode okEnv;
  clock := clock okEnv
|}.

(** Oracles that differ from [okEnv] in the code-generation engine. *)
Definition stage4Env (gen : list string * (Thrown + string)) : Env := {|
  validateFigmaUrl := validateFigmaUrl okEnv;
  fetchFigmaFile := fetchFigmaFile okEnv;
  getFileMetadata := getFileMetadata okEnv;
  getFileComponents := getFileComponents okEnv;
  getFileStyles := getFileStyles okEnv;
  extractSVGFromFigma := extractSVGFromFigma okEnv;
  transformer := transformer okEnv;
  generateCode := fun _ => gen;
  clock := clock okEnv
|}.

(** Oracles whose URL validation answers [v]. *)
Definition validationEnv (v : Validation) : Env := {|
  validateFigmaUrl := fun _ => inr v;
  fetchFigmaFile := fetchFigmaFile okEnv;
  getFileMetadata := getFileMetadata okEnv;
  getFileComponents := getFileComponents okEnv;
  getFileStyles := getFileStyles okEnv;
  extractSVGFromFigma := extractSVGFromFigma okEnv;
  transformer := transformer okEnv;
  generateCode := generateCode okEnv;
  clock := clock okEnv
|}.

(** A state in which the user has typed style and markup for stage 4. *)
Definition draftState (generated css jsx moreCss : string)
    (fd : option FigmaData) : FigmaStepsState :=
  figmaStepsReducer initialState
    (SET_STEP_DATA {|
       p_figmaUrl := None; p_accessToken := None; p_figmaData := Some fd;
       p_svgCode := None; p_generatedTsxCode := Some generated;
       p_cssCode := Some css; p_jsxCode := Some jsx;
       p_moreCssCode := Some moreCss; p_finalTsxCode := None;
       p_finalCssCode := None |}).

(** What the user typed and toggled, and the progress total. *)
Definition userInputs (s : FigmaStepsState) :=
  (figmaUrl (stepData s), accessToken (stepData s), cssCode (stepData s),
   jsxCode (stepData s), moreCssCode (stepData s),
   expandedBlocks (uiState s), previewMode (uiState s),
   total (progress (uiState s))).

(** A progress dispatch that carries a message at most. *)
Definition onlyProgressMessage (a : FigmaStepsAction) : bool :=
  match a with
  | SET_PROGRESS p => absent (p_current p) && absent (p_total p)
  | _ => false
  end.

(** The credentials pass the guard of [connectToFigma], the URL validates
    to the file id [fid], and the four fetches answer. *)
Definition stage1Fetches (env : Env) (s : FigmaStepsState) (fid : string)
    (figmaFile : FigmaFile) (meta : FileMetadata) (comps stys : string)
    : Prop :=
  let url := figmaUrl (stepData s) in
  let token := accessToken (stepData s) in
  truthy (trim url) = true
  /\ truthy (trim token) = true
  /\ (exists v, validateFigmaUrl env url = inr v
        /\ valid v = true /\ v_fileId v = Some fid)
  /\ truthy fid = true
  /\ fetchFigmaFile env fid token = inr figmaFile
  /\ getFileMetadata env fid token = inr meta
  /\ getFileComponents env fid token = inr comps
  /\ getFileStyles env fid token = inr stys.


(** Every character of [w] is in the class. *)
Fixpoint all_in (cls : ascii -> bool) (w : string) : bool :=
  match w with
  | EmptyString => true
  | String c w' => cls c && all_in cls w'
  end.

(** The language of an expression: the texts it can match, whatever the
    order in which the matcher tries them. *)
Fixpoint matches (r : regex) (w : string) : Prop :=
  match r with
  | Lit l => w = l
  | Star _ cls => all_in cls w = true
  | Group r1 => matches r1 w
  | Seq r1 r2 =>
      exists w1 w2, w = w1 +:+ w2 /\ matches r1 w1 /\ matches r2 w2
  end.

(** A document bundle that lacks the file and the metadata. *)
Definition bareData : FigmaData := {|
  file := None;
  metadata := None;
  components := "";
  styles := "";
  fileId := "";
  extractedAt := ""
|}.

(** * Properties *)

(** ** Sanity checks *)

Example trim_ex : trim (" " +:+ LF +:+ " a b  ") = "a b".
Proof. reflexivity. Qed.

Example replace_ex : replace "a-b-c" "-" "[$&$$$`$'$1]" = "a[-$ab-c$1]b-c".
Proof. reflexivity. Qed.

Example number_ex : numberToString 0 = "0" /\ numberToString 120 = "120".
Proof. split; reflexivity. Qed.

Example returnRe_ex :
  str_match returnRe ("f() { return  ( <svg> a </svg>  ); g(); }")
  = Some {| m_before := "f() { ";
            m_0 := "return  ( <svg> a </svg>  );";
            m_1 := Some "<svg> a </svg>" |}.
Proof. reflexivity. Qed.

Example returnRe_none : str_match returnRe "return <svg/>;" = None.
Proof. reflexivity. Qed.

(** The lazy group stops at the first [);], and a [return] that is not
    followed by a parenthesis is passed over. *)
Example returnRe_lazy :
  str_match returnRe "return x; return (f(1); g(2));"
  = Some {| m_before := "return x; ";
            m_0 := "return (f(1);";
            m_1 := Some "f(1" |}.
Proof. reflexivity. Qed.

Example returnRe_multiline :
  str_match returnRe ("return (" +:+ LF +:+ "  <svg/>" +:+ LF +:+ ");")
  = Some {| m_before := "";
            m_0 := "return (" +:+ LF +:+ "  <svg/>" +:+ LF +:+ ");";
            m_1 := Some "<svg/>" |}.
Proof. reflexivity. Qed.

Example connect_then_status :
  stepStatus (runAction readyState (DoConnectToFigma okEnv))
  = {| step1 := success; step2 := success; step3 := idle; step4 := idle |}.
Proof. reflexivity. Qed.

Example combineCodePieces_ex :
  combineCodePieces "T" "const C = () => { return (<svg/>); }" "<p/>" None
  = "const C = () => { return (" +:+ LF +:+
    "    <React.Fragment>" +:+ LF +:+
    "      <svg/>" +:+ LF +:+
    "      {/* Additional JSX */}" +:+ LF +:+
    "      <p/>" +:+ LF +:+
    "    </React.Fragment>" +:+ LF +:+
    "  ); }".
Proof. reflexivity. Qed.

(** ** The store *)

Lemma reduceAll_app s l1 l2 :
  reduceAll s (l1 ++ l2) = reduceAll (reduceAll s l1) l2.
Proof. unfold reduceAll. apply foldl_app. Qed.

Lemma dispatched_app t1 t2 :
  dispatched (t1 ++ t2) = dispatched t1 ++ dispatched t2.
Proof.
  induction t1 as [|[a|c] t1 IH]; simpl; [done | by rewrite IH | done].
Qed.

Lemma entered_app t1 t2 : entered (t1 ++ t2) = entered t1 ++ entered t2.
Proof.
  induction t1 as [|[a|c] t1 IH]; simpl; [done | done | by rewrite IH].
Qed.

(** C4. Whatever the state, [RESET_ALL] yields the documented initial state:
    the placeholder URL, every other step-data field empty or null, the four
    statuses idle, the four expansion flags and the preview mode false, no
    error entry, and progress 0 of 4 with an empty message. *)
Theorem reset_all_restores_defaults (s : FigmaStepsState) :
  figmaStepsReducer s RESET_ALL =
    {| stepData :=
         {| figmaUrl := "https://www.figma.com/design/...";
            accessToken := ""; figmaData := None; svgCode := "";
            generatedTsxCode := ""; cssCode := ""; jsxCode := "";
            moreCssCode := ""; finalTsxCode := ""; finalCssCode := "" |};
       stepStatus :=
         {| step1 := idle; step2 := idle; step3 := idle; step4 := idle |};
       uiState :=
         {| expandedBlocks :=
              {| block1 := false; block2 := false;
                 block3 := false; block4 := false |};
            previewMode := false;
            errors := ∅;
            progress := {| current := 0; total := 4; message := "" |} |} |}.
Proof. reflexivity. Qed.

(** C10. Toggling an expansion flag twice gives the state back; toggling it
    once negates that flag and leaves step data, step status, the other three
    flags, the preview mode, the errors and the progress as they were. *)
Theorem toggle_block_involution (s : FigmaStepsState) (k : BlockKey) :
  figmaStepsReducer (figmaStepsReducer s (TOGGLE_BLOCK k)) (TOGGLE_BLOCK k) = s
  /\ (let s' := figmaStepsReducer s (TOGGLE_BLOCK k) in
      getBlock k (expandedBlocks (uiState s'))
        = negb (getBlock k (expandedBlocks (uiState s)))
      /\ (forall k', k' <> k ->
            getBlock k' (expandedBlocks (uiState s'))
              = getBlock k' (expandedBlocks (uiState s)))
      /\ stepData s' = stepData s
      /\ stepStatus s' = stepStatus s
      /\ previewMode (uiState s') = previewMode (uiState s)
      /\ errors (uiState s') = errors (uiState s)
      /\ progress (uiState s') = progress (uiState s)).
Proof.
  destruct s as [d t [[b1 b2 b3 b4] pm er pg]].
  split.
  - destruct k; simpl; unfold withUIState; simpl;
      by rewrite negb_involutive.
  - simpl. repeat split.
    + by destruct k.
    + intros k' Hk. destruct k, k'; simpl; congruence.
Qed.

Lemma toggle_block_involution_witness :
  getBlock k_block2
    (expandedBlocks
       (uiState (figmaStepsReducer initialState (TOGGLE_BLOCK k_block1))))
  = getBlock k_block2 (expandedBlocks (uiState initialState)).
Proof.
  destruct (toggle_block_involution initialState k_block1)
    as (_ & _ & H & _).
  apply H. discriminate.
Defined.

Lemma merged_spread {A : Type} (old : A) (payload : option A) :
  merged old payload (spread old payload).
Proof. by destruct payload. Qed.

(** C5. Each merge action overwrites exactly the properties its payload has
    and keeps every other property of its branch and every sibling branch;
    [SET_ERROR] writes the one entry of its key and keeps every other entry
    and everything else; the reducer is total, so every action yields a
    state. *)
Theorem reducer_frame (s : FigmaStepsState) :
  (forall p, let s' := figmaStepsReducer s (SET_STEP_DATA p) in
     merged (figmaUrl (stepData s)) (p_figmaUrl p) (figmaUrl (stepData s'))
     /\ merged (accessToken (stepData s)) (p_accessToken p)
          (accessToken (stepData s'))
     /\ merged (figmaData (stepData s)) (p_figmaData p)
          (figmaData (stepData s'))
     /\ merged (svgCode (stepData s)) (p_svgCode p) (svgCode (stepData s'))
     /\ merged (generatedTsxCode (stepData s)) (p_generatedTsxCode p)
          (generatedTsxCode (stepData s'))
     /\ merged (cssCode (stepData s)) (p_cssCode p) (cssCode (stepData s'))
     /\ merged (jsxCode (stepData s)) (p_jsxCode p) (jsxCode (stepData s'))
     /\ merged (moreCssCode (stepData s)) (p_moreCssCode p)
          (moreCssCode (stepData s'))
     /\ merged (finalTsxCode (stepData s)) (p_finalTsxCode p)
          (finalTsxCode (stepData s'))
     /\ merged (finalCssCode (stepData s)) (p_finalCssCode p)
          (finalCssCode (stepData s'))
     /\ stepStatus s' = stepStatus s
     /\ uiState s' = uiState s)
  /\ (forall p, let s' := figmaStepsReducer s (SET_STEP_STATUS p) in
     merged (step1 (stepStatus s)) (p_step1 p) (step1 (stepStatus s'))
     /\ merged (step2 (stepStatus s)) (p_step2 p) (step2 (stepStatus s'))
     /\ merged (step3 (stepStatus s)) (p_step3 p) (step3 (stepStatus s'))
     /\ merged (step4 (stepStatus s)) (p_step4 p) (step4 (stepStatus s'))
     /\ stepData s' = stepData s
     /\ uiState s' = uiState s)
  /\ (forall p, let s' := figmaStepsReducer s (SET_UI_STATE p) in
     merged (expandedBlocks (uiState s)) (p_expandedBlocks p)
       (expandedBlocks (uiState s'))
     /\ merged (previewMode (uiState s)) (p_previewMode p)
          (previewMode (uiState s'))
     /\ merged (errors (uiState s)) (p_errors p) (errors (uiState s'))
     /\ merged (progress (uiState s)) (p_progress p) (progress (uiState s'))
     /\ stepData s' = stepData s
     /\ stepStatus s' = stepStatus s)
  /\ (forall p, let s' := figmaStepsReducer s (SET_PROGRESS p) in
     merged (current (progress (uiState s))) (p_current p)
       (current (progress (uiState s')))
     /\ merged (total (progress (uiState s))) (p_total p)
          (total (progress (uiState s')))
     /\ merged (message (progress (uiState s))) (p_message p)
          (message (progress (uiState s')))
     /\ expandedBlocks (uiState s') = expandedBlocks (uiState s)
     /\ previewMode (uiState s') = previewMode (uiState s)
     /\ errors (uiState s') = errors (uiState s)
     /\ stepData s' = stepData s
     /\ stepStatus s' = stepStatus s)
  /\ (forall key err, let s' := figmaStepsReducer s (SET_ERROR key err) in
     errors (uiState s') !! key = Some err
     /\ (forall key', key' <> key ->
           errors (uiState s') !! key' = errors (uiState s) !! key')
     /\ expandedBlocks (uiState s') = expandedBlocks (uiState s)
     /\ previewMode (uiState s') = previewMode (uiState s)
     /\ progress (uiState s') = progress (uiState s)
     /\ stepData s' = stepData s
     /\ stepStatus s' = stepStatus s)
  /\ (forall a, exists s', figmaStepsReducer s a = s').
Proof.
  repeat split; simpl; try apply merged_spread.
  - apply lookup_insert_eq.
  - intros key' Hne. by apply lookup_insert_ne.
  - by eexists.
Qed.

Lemma reducer_frame_witness :
  errors (uiState (figmaStepsReducer initialState (SET_ERROR "step1" "boom")))
    !! "step2"
  = errors (uiState initialState) !! "step2".
Proof.
  destruct (reducer_frame initialState) as (_ & _ & _ & _ & H & _).
  destruct (H "step1" "boom") as (_ & H' & _).
  apply H'. discriminate.
Defined.

(** ** Stage 1: validation *)

Lemma truthy_empty s : s = "" -> truthy s = false.
Proof. by intros ->. Qed.

Lemma msgMissingCredentials_nonempty : msgMissingCredentials <> "".
Proof. discriminate. Qed.

(** C1. When the URL or the token is empty after trimming, the connect
    action dispatches a single [SET_ERROR] for step1 and nothing else: no
    dispatched action writes a status, so the step1 status (indeed every
    status) stays what it was and never becomes loading on account of this
    call, and the step1 error entry holds a non-empty message. *)
Theorem connect_rejects_missing_credentials (env : Env) (s : FigmaStepsState) :
  trim (figmaUrl (stepData s)) = "" \/ trim (accessToken (stepData s)) = "" ->
  let tr := trace (connectToFigma env s) in
  let s' := runAction s (DoConnectToFigma env) in
  (forall p, SET_STEP_STATUS p ∉ dispatched tr)
  /\ Forall (fun x => step1 (stepStatus x) = step1 (stepStatus s))
       (statesAlong s (dispatched tr))
  /\ step1 (stepStatus s') = step1 (stepStatus s)
  /\ exists msg, errors (uiState s') !! "step1" = Some msg /\ msg <> "".
Proof.
  intros Hempty tr s'.
  assert (Htr : tr = [Enter CallConnectToFigma;
                      Dispatch (SET_ERROR "step1" msgMissingCredentials)]).
  { subst tr. unfold connectToFigma.
    assert (negb (truthy (trim (figmaUrl (stepData s))))
            || negb (truthy (trim (accessToken (stepData s)))) = true) as ->.
    { destruct Hempty as [H|H]; rewrite (truthy_empty _ H); simpl;
        [done | by rewrite orb_true_r]. }
    reflexivity. }
  subst s'. unfold runAction. simpl perform. fold tr. rewrite Htr. simpl.
  repeat split.
  - intros p Hin. apply list_elem_of_singleton in Hin. discriminate.
  - repeat constructor.
  - exists msgMissingCredentials. split.
    + apply lookup_insert_eq.
    + apply msgMissingCredentials_nonempty.
Qed.

Lemma connect_rejects_missing_credentials_witness :
  (trim (figmaUrl (stepData initialState)) = ""
   \/ trim (accessToken (stepData initialState)) = "")
  /\ step1 (stepStatus (runAction initialState (DoConnectToFigma okEnv)))
     = step1 (stepStatus initialState).
Proof.
  assert (H : trim (figmaUrl (stepData initialState)) = ""
              \/ trim (accessToken (stepData initialState)) = "").
  { right. reflexivity. }
  split; [exact H |].
  exact (proj1 (proj2 (proj2
    (connect_rejects_missing_credentials okEnv initialState H)))).
Defined.

(** ** Traces of the stage functions *)

Arguments trim : simpl never.
Arguments includes : simpl never.
Arguments truthy : simpl never.
Arguments orElse : simpl never.
Arguments combineCodePieces : simpl never.
Arguments combineCssCode : simpl never.

(** Case analysis on the next oracle outcome or guard that blocks
    evaluation. *)
Ltac case_step :=
  match goal with
  | |- context [match ?x with _ => _ end] =>
      lazymatch x with
      | context [match _ with _ => _ end] => fail
      | _ => destruct x eqn:?
      end
  end.

Ltac crunch := repeat (simpl; try case_step).

Ltac unfold_monad :=
  unfold trace, andThen, try_catch, setError, setStepStatus, setProgress,
    clearErrors, setStepData, dispatch, enter, throw, await.

Lemma generateSvgCode_entered env s a :
  entered (trace (generateSvgCode env s a)) = [CallGenerateSvgCode a].
Proof. unfold generateSvgCode. unfold_monad. crunch; reflexivity. Qed.

Lemma generateSvgCode_spares env s a :
  forallb sparesStage3And4 (dispatched (trace (generateSvgCode env s a)))
  = true.
Proof. unfold generateSvgCode. unfold_monad. crunch; reflexivity. Qed.

Lemma generateSvgCode_returns env s a :
  snd (generateSvgCode env s a) = inr tt.
Proof. unfold generateSvgCode. unfold_monad. crunch; reflexivity. Qed.

Arguments generateSvgCode : simpl never.

Lemma autoGenerateSvg_entered env d f :
  List.filter isAutoCall (entered (trace (autoGenerateSvg env d f)))
    = [CallAutoGenerateSvg d f]
  /\ List.filter isStage3Or4Call (entered (trace (autoGenerateSvg env d f))) = [].
Proof.
  unfold autoGenerateSvg. unfold_monad.
  destruct (extractSVGFromFigma env (file d)) as [e|svg]; simpl; [done|].
  pose proof (generateSvgCode_entered env initialState (Some svg)) as He.
  destruct (generateSvgCode env initialState (Some svg)) as [tr [e|[]]];
    simpl in *; rewrite ?entered_app; simpl; rewrite ?List.filter_app, He; done.
Qed.

Lemma autoGenerateSvg_spares env d f :
  forallb sparesStage3And4 (dispatched (trace (autoGenerateSvg env d f)))
  = true.
Proof.
  unfold autoGenerateSvg. unfold_monad.
  destruct (extractSVGFromFigma env (file d)) as [e|svg]; simpl; [done|].
  pose proof (generateSvgCode_spares env initialState (Some svg)) as He.
  destruct (generateSvgCode env initialState (Some svg)) as [tr [e|[]]];
    simpl in *; rewrite ?dispatched_app, ?forallb_app; simpl; rewrite He;
    done.
Qed.

Lemma autoGenerateSvg_returns env d f :
  snd (autoGenerateSvg env d f) = inr tt.
Proof.
  unfold autoGenerateSvg. unfold_monad.
  destruct (extractSVGFromFigma env (file d)) as [e|svg]; simpl; [done|].
  pose proof (generateSvgCode_returns env initialState (Some svg)) as He.
  destruct (generateSvgCode env initialState (Some svg)) as [tr [e|[]]];
    simpl in *; done.
Qed.

Lemma autoGenerateSvg_no_step1 env d f :
  existsb writesStep1Success (trace (autoGenerateSvg env d f)) = false.
Proof.
  unfold autoGenerateSvg. unfold_monad.
  destruct (extractSVGFromFigma env (file d)) as [e|svg]; simpl; [done|].
  assert (Hg : existsb writesStep1Success
                 (trace (generateSvgCode env initialState (Some svg)))
               = false).
  { unfold generateSvgCode. unfold_monad. crunch; reflexivity. }
  destruct (generateSvgCode env initialState (Some svg)) as [tr [e|[]]];
    simpl in *; rewrite ?existsb_app; simpl; rewrite Hg; done.
Qed.

Arguments autoGenerateSvg : simpl never.

Lemma forEach_setProgress (l : list string) :
  forEach (fun status => setProgress (progress_msg status)) l
  = (map (fun status => Dispatch (SET_PROGRESS (progress_msg status))) l,
     inr tt).
Proof.
  induction l as [|x l IH]; [done|].
  simpl. rewrite IH. reflexivity.
Qed.

Lemma entered_progress_reports (l : list string) :
  entered (map (fun status => Dispatch (SET_PROGRESS (progress_msg status))) l)
  = [].
Proof. induction l; simpl; done. Qed.

Lemma generateFinalCode_entered env s :
  entered (trace (generateFinalCode env s)) = [CallGenerateFinalCode].
Proof.
  unfold generateFinalCode. unfold_monad.
  destruct (generateCode env _) as [reported outcome].
  rewrite forEach_setProgress.
  destruct (negb _ && negb _); simpl; [done|].
  destruct outcome as [e|code]; simpl;
    rewrite ?entered_app, entered_progress_reports; reflexivity.
Qed.

Lemma connectToFigma_entered env s :
  List.filter isStage3Or4Call (entered (trace (connectToFigma env s))) = [].
Proof.
  unfold connectToFigma, connectBody, connectHandler. unfold_monad.
  crunch; try reflexivity.
  all: match goal with
       | H : autoGenerateSvg ?e ?d ?f = _ |- _ =>
           pose proof (proj2 (autoGenerateSvg_entered e d f)) as Ha;
           rewrite H in Ha; simpl in Ha
       end.
  all: rewrite ?entered_app, ?List.filter_app; simpl; rewrite ?Ha; reflexivity.
Qed.

(** C2. A run of the connect action that writes [success] to step1 has
    fetched a file, its metadata, components and styles, has stored the
    bundle built from exactly these, and then, after the success write,
    enters [autoGenerateSvg] exactly once, with that bundle and its file id:
    the trace is the nine events of the success path followed by the run of
    [autoGenerateSvg]. No exposed action enters
    [saveCssCode] or [generateFinalCode] other than that action itself, and
    the connect and the stage-2 actions write no status of stage 3 or 4. *)
Theorem stage1_success_auto_invokes_stage2 (env : Env) (s : FigmaStepsState) :
  (existsb writesStep1Success (trace (connectToFigma env s)) = true ->
   exists figmaFile meta comps stys fid,
     let token := accessToken (stepData s) in
     let data := completeData figmaFile meta comps stys fid (clock env 0) in
     fetchFigmaFile env fid token = inr figmaFile
     /\ getFileMetadata env fid token = inr meta
     /\ getFileComponents env fid token = inr comps
     /\ getFileStyles env fid token = inr stys
     /\ trace (connectToFigma env s)
        = [Enter CallConnectToFigma;
           Dispatch (SET_STEP_STATUS (status_step1 loading));
           Dispatch CLEAR_ERRORS;
           Dispatch (SET_PROGRESS (progress_at 1 "Connecting to Figma..."));
           Dispatch (SET_PROGRESS (progress_msg "Fetching Figma file data..."));
           Dispatch (SET_PROGRESS (progress_msg "Getting metadata..."));
           Dispatch (SET_STEP_DATA (data_figmaData data));
           Dispatch (SET_STEP_STATUS (status_step1 success));
           Dispatch (SET_PROGRESS (progress_msg "Connection successful!"))]
          ++ trace (autoGenerateSvg env data fid)
     /\ List.filter isAutoCall (entered (trace (connectToFigma env s)))
          = [CallAutoGenerateSvg data fid])
  /\ (forall a,
        List.filter isStage3Or4Call (entered (trace (perform s a)))
        = match a with
          | DoSaveCssCode => [CallSaveCssCode]
          | DoGenerateFinalCode _ => [CallGenerateFinalCode]
          | _ => []
          end)
  /\ forallb sparesStage3And4 (dispatched (trace (connectToFigma env s)))
     = true
  /\ (forall svgContent,
        forallb sparesStage3And4
          (dispatched (trace (generateSvgCode env s svgContent))) = true).
Proof.
  split; [| split; [| split]].
  - unfold connectToFigma, connectBody, connectHandler. unfold_monad.
    crunch; try discriminate.
    all: match goal with
         | H : autoGenerateSvg ?e ?d ?f = _ |- _ =>
             pose proof (proj1 (autoGenerateSvg_entered e d f)) as Ha;
             pose proof (autoGenerateSvg_returns e d f) as Hr;
             rewrite H in Ha, Hr; simpl in Ha, Hr
         end; try discriminate.
    intros _. do 5 eexists. repeat (split; [eassumption|]).
    split.
    + match goal with
      | H : autoGenerateSvg _ _ _ = _ |- _ => by rewrite H
      end.
    + simpl. exact Ha.
  - intros a. destruct a; try reflexivity.
    + apply connectToFigma_entered.
    + simpl. by rewrite generateSvgCode_entered.
    + simpl. unfold saveCssCode. unfold_monad. crunch; reflexivity.
    + simpl. by rewrite generateFinalCode_entered.
  - unfold connectToFigma, connectBody, connectHandler. unfold_monad.
    crunch; try reflexivity.
    all: match goal with
         | H : autoGenerateSvg ?e ?d ?f = _ |- _ =>
             pose proof (autoGenerateSvg_spares e d f) as Ha;
             rewrite H in Ha; simpl in Ha
         end.
    all: rewrite ?dispatched_app, ?forallb_app; simpl; rewrite ?Ha; reflexivity.
  - intros svgContent. apply generateSvgCode_spares.
Qed.

Lemma stage1_success_auto_invokes_stage2_witness :
  exists data fid,
    List.filter isAutoCall (entered (trace (connectToFigma okEnv readyState)))
    = [CallAutoGenerateSvg data fid].
Proof.
  destruct (proj1 (stage1_success_auto_invokes_stage2 okEnv readyState)
              eq_refl)
    as (figmaFile & meta & comps & stys & fid & H).
  eexists _, fid. apply H.
Defined.

(** ** Stage 1: error classification *)

Lemma connectToFigma_failure env s tr e :
  truthy (trim (figmaUrl (stepData s))) = true ->
  truthy (trim (accessToken (stepData s))) = true ->
  connectBody env (figmaUrl (stepData s)) (accessToken (stepData s))
    = (tr, inl e) ->
  trace (connectToFigma env s)
  = [Enter CallConnectToFigma;
     Dispatch (SET_STEP_STATUS (status_step1 loading));
     Dispatch CLEAR_ERRORS;
     Dispatch (SET_PROGRESS (progress_at 1 "Connecting to Figma..."))]
    ++ tr
    ++ [Dispatch (SET_ERROR "step1" (connectErrorMessage e));
        Dispatch (SET_STEP_STATUS (status_step1 error));
        Dispatch (SET_PROGRESS (progress_msg "Connection failed"))].
Proof.
  intros Hu Ht Hb. unfold connectToFigma. rewrite Hu, Ht. simpl.
  unfold try_catch. rewrite Hb. reflexivity.
Qed.

Lemma connectToFigma_failure_state env s tr e :
  truthy (trim (figmaUrl (stepData s))) = true ->
  truthy (trim (accessToken (stepData s))) = true ->
  connectBody env (figmaUrl (stepData s)) (accessToken (stepData s))
    = (tr, inl e) ->
  let s' := runAction s (DoConnectToFigma env) in
  step1 (stepStatus s') = error
  /\ errors (uiState s') !! "step1" = Some (connectErrorMessage e).
Proof.
  intros Hu Ht Hb s'. subst s'. unfold runAction. simpl perform.
  rewrite (connectToFigma_failure env s tr e Hu Ht Hb).
  rewrite !dispatched_app, !reduceAll_app. simpl.
  split; [reflexivity | apply lookup_insert_eq].
Qed.

(** C6 (as the code has it). When the [try] block of the connect action ends
    by throwing an [Error] with message [m], step1 becomes [error]; if [m]
    contains "403" the stored step1 message is the access-denied message; if
    [m] contains "429" and none of "Access denied", "403", "404" and "401",
    which the handler tests first, the stored message is the rate-limit
    message. *)
Theorem connect_error_classification (env : Env) (s : FigmaStepsState)
    (tr : list Event) (m : string) :
  truthy (trim (figmaUrl (stepData s))) = true ->
  truthy (trim (accessToken (stepData s))) = true ->
  connectBody env (figmaUrl (stepData s)) (accessToken (stepData s))
    = (tr, inl (ErrorObj m)) ->
  let s' := runAction s (DoConnectToFigma env) in
  step1 (stepStatus s') = error
  /\ (includes m "403" = true ->
      errors (uiState s') !! "step1" = Some msgAccessDenied)
  /\ (includes m "429" = true ->
      includes m "Access denied" = false ->
      includes m "403" = false ->
      includes m "404" = false ->
      includes m "401" = false ->
      errors (uiState s') !! "step1" = Some msgRateLimit).
Proof.
  intros Hu Ht Hb s'.
  destruct (connectToFigma_failure_state env s tr _ Hu Ht Hb) as [Hs He].
  fold s' in Hs, He. split; [exact Hs|]. split.
  - intros H403. rewrite He. simpl. rewrite H403, orb_true_r. reflexivity.
  - intros H429 Had H403 H404 H401. rewrite He. simpl.
    rewrite Had, H403, H404, H401, H429. reflexivity.
Qed.

Lemma connect_error_classification_witness :
  errors (uiState (runAction readyState
                     (DoConnectToFigma (fetchFailsEnv "HTTP 403 Forbidden"))))
    !! "step1" = Some msgAccessDenied.
Proof.
  exact (proj1 (proj2
    (connect_error_classification (fetchFailsEnv "HTTP 403 Forbidden")
       readyState _ "HTTP 403 Forbidden" eq_refl eq_refl eq_refl)) eq_refl).
Defined.

(** A message that contains both "404" and "429" is classified by the
    earlier test: the stored message is the not-found message, not the
    rate-limit message. *)
Lemma rate_limit_shadowed_by_not_found :
  let m := "429 Too Many Requests (quota page 404)" in
  let env := fetchFailsEnv m in
  let s' := runAction readyState (DoConnectToFigma env) in
  snd (connectBody env (figmaUrl (stepData readyState))
         (accessToken (stepData readyState))) = inl (ErrorObj m)
  /\ includes m "429" = true
  /\ errors (uiState s') !! "step1" = Some msgNotFound
  /\ errors (uiState s') !! "step1" <> Some msgRateLimit.
Proof.
  vm_compute. repeat split; discriminate.
Qed.

(** ** Status discipline *)

Lemma stepStatus_reducer s a :
  stepStatus (figmaStepsReducer s a) = statusAfter (stepStatus s) a.
Proof. by destruct a. Qed.


Lemma transitions_statusRun s acts :
  forallb disciplinedTransition (transitions s acts)
  = statusRun (stepStatus s) acts.
Proof.
  revert s. induction acts as [|a acts IH]; intros s; [done|].
  simpl. rewrite IH. unfold disciplinedTransition at 1. simpl.
  by rewrite stepStatus_reducer.
Qed.

Lemma statusRun_app t l1 l2 :
  statusRun t (l1 ++ l2) = statusRun t l1 && statusRun (statusEnd t l1) l2.
Proof.
  revert t. induction l1 as [|a l1 IH]; intros t; [done|].
  simpl. rewrite IH. by rewrite andb_assoc.
Qed.

Lemma statusesDisciplined_refl t : statusesDisciplined t t = true.
Proof. by destruct t as [[] [] [] []]. Qed.

(** Progress reports leave the statuses alone. *)
Lemma statusRun_reports t (l : list string) :
  statusRun t
    (dispatched
       (map (fun status => Dispatch (SET_PROGRESS (progress_msg status))) l))
  = true
  /\ statusEnd t
       (dispatched
          (map (fun status => Dispatch (SET_PROGRESS (progress_msg status))) l))
     = t.
Proof.
  induction l as [|x l [IH1 IH2]]; [done|].
  simpl. unfold statusEnd in *. simpl.
  by rewrite statusesDisciplined_refl, IH1, IH2.
Qed.

Ltac by_status_cases t :=
  destruct t as [[] [] [] []]; reflexivity.

Lemma generateSvgCode_statusRun env s a t :
  statusRun t (dispatched (trace (generateSvgCode env s a))) = true.
Proof.
  unfold generateSvgCode. unfold_monad. crunch; by_status_cases t.
Qed.

Lemma autoGenerateSvg_statusRun env d f t :
  statusRun t (dispatched (trace (autoGenerateSvg env d f))) = true.
Proof.
  unfold autoGenerateSvg. unfold_monad.
  destruct (extractSVGFromFigma env (file d)) as [e|svg]; simpl;
    [by_status_cases t|].
  pose proof (fun t' =>
    generateSvgCode_statusRun env initialState (Some svg) t') as Hg.
  pose proof (generateSvgCode_returns env initialState (Some svg)) as Hr.
  destruct (generateSvgCode env initialState (Some svg)) as [tr [e|[]]];
    simpl in *; [discriminate Hr|].
  rewrite !Hg. by_status_cases t.
Qed.

Lemma connectToFigma_statusRun env s t :
  statusRun t (dispatched (trace (connectToFigma env s))) = true.
Proof.
  unfold connectToFigma, connectBody, connectHandler. unfold_monad.
  crunch.
  all: try match goal with
       | H : autoGenerateSvg ?e ?d ?f = _ |- _ =>
           pose proof (fun t' => autoGenerateSvg_statusRun e d f t') as Ha;
           pose proof (autoGenerateSvg_returns e d f) as Hr;
           rewrite H in Ha, Hr; simpl in Ha, Hr
       end.
  all: try discriminate.
  all: rewrite ?Ha.
  all: by_status_cases t.
Qed.

Lemma saveCssCode_statusRun s t :
  statusRun t (dispatched (trace (saveCssCode s))) = true.
Proof. unfold saveCssCode. unfold_monad. crunch; by_status_cases t. Qed.

Lemma generateFinalCode_statusRun env s t :
  statusRun t (dispatched (trace (generateFinalCode env s))) = true.
Proof.
  unfold generateFinalCode. unfold_monad.
  destruct (generateCode env _) as [reported outcome].
  rewrite forEach_setProgress.
  destruct (negb _ && negb _); simpl; [by_status_cases t|].
  destruct (statusRun_reports (mergeStepStatus t (status_step4 loading))
              reported) as [Hrun Hend].
  destruct outcome as [e|code]; simpl;
    rewrite ?app_nil_r, !dispatched_app, !statusRun_app, Hrun, Hend;
    by_status_cases t.
Qed.

Lemma perform_statusRun s a t :
  isSetStepStatus a = false ->
  statusRun t (dispatched (trace (perform s a))) = true.
Proof.
  intros Ha. destruct a; try discriminate; simpl perform.
  1-7: by_status_cases t.
  - apply connectToFigma_statusRun.
  - apply generateSvgCode_statusRun.
  - apply saveCssCode_statusRun.
  - apply generateFinalCode_statusRun.
  - by_status_cases t.
Qed.

(** C3 (as the code has it). Along any sequence of exposed actions that does
    not use [setStepStatus], each run to completion, from any state: the
    statuses of stages 1, 2 and 4 enter [success] or [error] from [loading]
    only, and the status of stage 3 never enters [loading] or [error]. *)
Theorem status_discipline (s : FigmaStepsState) (acts : list UserAction) :
  forallb (fun a => negb (isSetStepStatus a)) acts = true ->
  forallb disciplinedTransition (transitionsOf s acts) = true.
Proof.
  revert s.
  induction acts as [|a acts IH]; intros s Hacts; [done|].
  simpl in Hacts. apply andb_true_iff in Hacts as [Ha Hacts].
  apply negb_true_iff in Ha.
  simpl. rewrite forallb_app, (IH _ Hacts), andb_true_r.
  rewrite transitions_statusRun. by apply perform_statusRun.
Qed.

(** The invariant as the data model words it fails in three ways: stage 3
    goes from [idle] straight to [success]; a stage that has succeeded is
    set to [loading] again when its action is re-run; and [setStepStatus]
    writes any status. *)
Lemma status_invariant_broken :
  let withCss := {|
    p_figmaUrl := None; p_accessToken := None; p_figmaData := None;
    p_svgCode := None; p_generatedTsxCode := None; p_cssCode := Some "a{}";
    p_jsxCode := None; p_moreCssCode := None; p_finalTsxCode := None;
    p_finalCssCode := None |} in
  let creds := withCredentials "https://www.figma.com/design/abc" "tok" in
  (step3 (stepStatus (runActions initialState [DoSetStepData withCss])) = idle
   /\ step3 (stepStatus
        (runActions initialState [DoSetStepData withCss; DoSaveCssCode]))
      = success
   /\ forallb allowedTransition
        (transitionsOf initialState [DoSetStepData withCss; DoSaveCssCode])
      = false)
  /\ (forallb allowedTransition
        (transitionsOf initialState
           [DoSetStepData creds; DoConnectToFigma okEnv])
      = true
      /\ forallb allowedTransition
           (transitionsOf initialState
              [DoSetStepData creds; DoConnectToFigma okEnv;
               DoConnectToFigma okEnv])
         = false)
  /\ forallb allowedTransition
       (transitionsOf initialState [DoSetStepStatus (status_step1 success)])
     = false.
Proof. vm_compute. repeat split. Qed.

Lemma status_discipline_witness :
  forallb disciplinedTransition
    (transitionsOf initialState
       [DoSetStepData (withCredentials "https://www.figma.com/design/abc" "tok");
        DoConnectToFigma okEnv; DoSaveCssCode; DoResetAll;
        DoConnectToFigma (fetchFailsEnv "HTTP 403")])
  = true.
Proof. apply status_discipline. reflexivity. Defined.

(** ** Facts about the string primitives *)

Section StringFacts.

Lemma app_String c s t : String c s +:+ t = String c (s +:+ t).
Proof. reflexivity. Qed.

Lemma app_empty_l s : "" +:+ s = s.
Proof. reflexivity. Qed.

Lemma app_empty_r s : s +:+ "" = s.
Proof. induction s as [|c s IH]; [done|]. by rewrite app_String, IH. Qed.

Lemma app_assoc s t u : (s +:+ t) +:+ u = s +:+ t +:+ u.
Proof.
  induction s as [|c s IH]; [done|]. by rewrite !app_String, IH.
Qed.

Lemma length_app s t :
  String.length (s +:+ t) = String.length s + String.length t.
Proof.
  induction s as [|c s IH]; [done|]. rewrite app_String. simpl.
  by rewrite IH.
Qed.

Lemma drop_prefix_app p r : drop_prefix p (p +:+ r) = Some r.
Proof.
  induction p as [|c p IH]; [done|].
  rewrite app_String. simpl. by rewrite Ascii.eqb_refl.
Qed.

Lemma drop_prefix_Some p s r : drop_prefix p s = Some r -> s = p +:+ r.
Proof.
  revert s. induction p as [|a p IH]; intros s H; simpl in H.
  - by inversion H.
  - destruct s as [|b s]; [done|].
    destruct (Ascii.eqb a b) eqn:Hab; [|done].
    apply Ascii.eqb_eq in Hab as ->. rewrite app_String.
    f_equal. by apply IH.
Qed.

Lemma find_first_Some n h a b :
  find_first n h = Some (a, b) -> h = a +:+ n +:+ b.
Proof.
  revert a. induction h as [|c h IH]; intros a H; simpl in H.
  - destruct (drop_prefix n "") eqn:Hd; [|done].
    inversion H; subst. by apply drop_prefix_Some in Hd.
  - destruct (drop_prefix n (String c h)) eqn:Hd.
    + inversion H; subst. by apply drop_prefix_Some in Hd.
    + destruct (find_first n h) as [[a' b']|] eqn:Hf; [|done].
      inversion H; subst. rewrite app_String. f_equal. by apply IH.
Qed.

Lemma find_first_unfold n h :
  find_first n h
  = match drop_prefix n h with
    | Some rest => Some ("", rest)
    | None =>
        match h with
        | EmptyString => None
        | String c h' =>
            match find_first n h' with
            | Some (pre, post) => Some (String c pre, post)
            | None => None
            end
        end
    end.
Proof. by destruct h. Qed.

Lemma find_first_occurs n a b :
  exists a' b', find_first n (a +:+ n +:+ b) = Some (a', b').
Proof.
  induction a as [|c a (a' & b' & IH)].
  - rewrite app_empty_l, find_first_unfold, drop_prefix_app.
    by eexists _, _.
  - rewrite app_String, find_first_unfold.
    destruct (drop_prefix n _); [by eexists _, _|].
    rewrite IH. by eexists _, _.
Qed.

Lemma includes_occurs n a b : includes (a +:+ n +:+ b) n = true.
Proof.
  unfold includes. by destruct (find_first_occurs n a b) as (? & ? & ->).
Qed.

Lemma includes_true h n :
  includes h n = true -> exists a b, h = a +:+ n +:+ b.
Proof.
  unfold includes. destruct (find_first n h) as [[a b]|] eqn:Hf; [|done].
  intros _. exists a, b. by apply find_first_Some.
Qed.

Lemma includes_empty n : includes "" n = startsWith "" n.
Proof.
  unfold includes, startsWith. destruct n as [|c n]; reflexivity.
Qed.

Lemma includes_String c h n :
  includes (String c h) n = startsWith (String c h) n || includes h n.
Proof.
  unfold includes, startsWith. rewrite find_first_unfold.
  destruct (drop_prefix n (String c h)); [done|].
  by destruct (find_first n h) as [[]|].
Qed.

Lemma lacks_app c s t : lacks c (s +:+ t) = lacks c s && lacks c t.
Proof.
  induction s as [|d s IH]; [done|].
  rewrite app_String. simpl. by rewrite IH, andb_assoc.
Qed.

Lemma startsWith_sep c n x y :
  lacks c n = true ->
  startsWith (x +:+ String c y) n = startsWith x n.
Proof.
  unfold startsWith. revert x.
  induction n as [|a n IH]; intros x Hn; [done|].
  simpl in Hn. apply andb_true_iff in Hn as [Hac Hn].
  apply negb_true_iff in Hac.
  destruct x as [|b x].
  - rewrite app_empty_l. simpl. by rewrite Hac.
  - rewrite app_String. simpl.
    destruct (Ascii.eqb a b); [|done]. by apply IH.
Qed.

(** A needle without the separator occurs in [x c y] exactly when it
    occurs in [x] or in [y]. *)
Lemma includes_sep c n x y :
  lacks c n = true ->
  includes (x +:+ String c y) n = includes x n || includes y n.
Proof.
  intros Hn. induction x as [|b x IH].
  - rewrite app_empty_l, includes_String, includes_empty.
    by rewrite <- (startsWith_sep c n "" y Hn), app_empty_l.
  - rewrite app_String, !includes_String, IH.
    rewrite <- app_String, (startsWith_sep c n _ y Hn).
    by rewrite orb_assoc.
Qed.

Lemma getSubstitution_literal matched before after t :
  lacks "$" t = true -> getSubstitution matched before after t = t.
Proof.
  induction t as [|c t IH]; intros H; [done|].
  simpl in H. apply andb_true_iff in H as [Hc Ht].
  apply negb_true_iff in Hc. simpl. rewrite Hc. f_equal. by apply IH.
Qed.

End StringFacts.

(** ** Style combine *)

Lemma LF_eq s : LF +:+ s = String (ascii_of_nat 10) s.
Proof. reflexivity. Qed.

Lemma baseStylesHeader_lacks_LF :
  lacks (ascii_of_nat 10) baseStylesHeader = true.
Proof. reflexivity. Qed.

Lemma includes_line x y :
  includes (x +:+ LF +:+ y) baseStylesHeader
  = includes x baseStylesHeader || includes y baseStylesHeader.
Proof. rewrite LF_eq. apply includes_sep, baseStylesHeader_lacks_LF. Qed.

Lemma includes_line2 a b y :
  includes (a +:+ b +:+ LF +:+ y) baseStylesHeader
  = includes (a +:+ b) baseStylesHeader || includes y baseStylesHeader.
Proof. by rewrite <- app_assoc, includes_line. Qed.

Lemma includes_after_LF y :
  includes (LF +:+ y) baseStylesHeader = includes y baseStylesHeader.
Proof.
  change (LF +:+ y) with ("" +:+ LF +:+ y). by rewrite includes_line.
Qed.

Lemma cssHeader_then now fd rest :
  includes (cssHeader now fd +:+ rest) baseStylesHeader
  = includes (cssHeader now fd) baseStylesHeader
    || includes rest baseStylesHeader.
Proof.
  destruct fd as [d|]; [|by rewrite app_empty_l].
  unfold cssHeader. rewrite !app_assoc.
  repeat (rewrite includes_line || rewrite includes_line2).
  rewrite includes_after_LF.
  change (includes LF baseStylesHeader) with false.
  change (includes "/*" baseStylesHeader) with false.
  change (includes " */" baseStylesHeader) with false.
  rewrite !orb_false_r, !orb_false_l, Bool.orb_assoc. reflexivity.
Qed.

(** C8 (as the code has it). For a base style that is empty after trimming
    and an additional style that is not, the output is the optional header
    comment, then the additional-styles section, then the responsive
    section, and nothing else: both sections occur in it, no base-styles
    section is emitted, and the text of the base-styles header occurs in the
    output exactly when the header comment or the additional style text
    itself contains it. *)
Theorem css_combine_without_base (now baseCss additionalCss : string)
    (fd : option FigmaData) :
  trim baseCss = "" ->
  trim additionalCss <> "" ->
  let out := combineCssCode now baseCss additionalCss fd in
  out = cssHeader now fd
          +:+ (additionalStylesHeader +:+ LF +:+ additionalCss +:+ LF +:+ LF)
          +:+ responsiveUtilities
  /\ includes out
       (additionalStylesHeader +:+ LF +:+ additionalCss +:+ LF +:+ LF) = true
  /\ includes out responsiveUtilities = true
  /\ includes out baseStylesHeader
     = includes (cssHeader now fd) baseStylesHeader
       || includes additionalCss baseStylesHeader.
Proof.
  intros Hbase Hadd out.
  assert (Hout : out = cssHeader now fd
            +:+ (additionalStylesHeader +:+ LF +:+ additionalCss +:+ LF +:+ LF)
            +:+ responsiveUtilities).
  { subst out. unfold combineCssCode, baseSection, additionalSection.
    rewrite Hbase. change (truthy "") with false. cbv iota.
    destruct (trim additionalCss) eqn:Ht; [done|].
    change (truthy (String a s)) with true. cbv iota.
    by rewrite app_empty_r, !app_assoc. }
  split; [exact Hout|]. rewrite Hout. split; [|split].
  - apply includes_occurs.
  - rewrite <- app_assoc, <- (app_empty_r responsiveUtilities) at 1.
    apply includes_occurs.
  - rewrite cssHeader_then. f_equal.
    rewrite !app_assoc, !includes_line.
    change (includes additionalStylesHeader baseStylesHeader) with false.
    rewrite includes_after_LF.
    assert (includes responsiveUtilities baseStylesHeader = false) as ->
      by reflexivity.
    by rewrite !orb_false_r.
Qed.

Lemma css_combine_without_base_witness :
  includes (combineCssCode "T" "  " ".a { color: red; }" None)
    baseStylesHeader = false.
Proof.
  assert (Ht : trim ".a { color: red; }" <> "") by discriminate.
  exact (proj2 (proj2 (proj2
    (css_combine_without_base "T" "  " ".a { color: red; }" None
       eq_refl Ht)))).
Defined.

(** An additional style text that quotes the base-styles header puts the
    header text into the output although the base style is empty. *)
Lemma css_base_header_from_additional :
  trim "" = ""
  /\ truthy (trim "/* Base Styles */ .a {}") = true
  /\ includes (combineCssCode "T" "" "/* Base Styles */ .a {}" None)
       baseStylesHeader = true.
Proof. vm_compute. repeat split. Qed.

(** ** Markup combine *)

(** C9 (as the code has it). When the generated source has no match for the
    return pattern, the splice leaves it as it is, whatever the user markup:
    the function returns the source itself when there is no document
    metadata and the source with only the metadata comment before it when
    there is. The function is total, so no error is raised. *)
Theorem combine_without_return_match (now generatedTsx manualJsx : string)
    (fd : option FigmaData) :
  str_match returnRe generatedTsx = None ->
  spliceManualJsx generatedTsx manualJsx = generatedTsx
  /\ combineCodePieces now generatedTsx manualJsx fd
     = match fd with
       | Some d => tsxMetadata now d +:+ generatedTsx
       | None => generatedTsx
       end.
Proof.
  intros Hm.
  assert (Hs : spliceManualJsx generatedTsx manualJsx = generatedTsx).
  { unfold spliceManualJsx. rewrite Hm. by destruct (truthy _). }
  split; [exact Hs|]. unfold combineCodePieces. by rewrite Hs.
Qed.

Lemma combine_without_return_match_witness :
  combineCodePieces "T" "export default <svg/>;" "<p/>" None
  = "export default <svg/>;".
Proof.
  exact (proj2 (combine_without_return_match "T" "export default <svg/>;"
                  "<p/>" None eq_refl)).
Defined.

(** With document metadata present the result is not the generated source:
    the metadata comment precedes it. *)
Lemma combine_prepends_metadata_without_match :
  str_match returnRe "export default <svg/>;" = None
  /\ combineCodePieces "T" "export default <svg/>;" "<p/>" (Some sampleData)
     <> "export default <svg/>;".
Proof. split; [reflexivity | vm_compute; discriminate]. Qed.

(** *** What a match of the matcher is *)

Lemma consumed_app mid rest : consumed (mid +:+ rest) rest = mid.
Proof.
  induction mid as [|c mid IH].
  - rewrite app_empty_l. destruct rest as [|c rest]; [done|].
    simpl. by rewrite Nat.leb_refl.
  - rewrite app_String.
    change (consumed (String c (mid +:+ rest)) rest)
      with (if Nat.leb (S (String.length (mid +:+ rest))) (String.length rest)
            then "" else String c (consumed (mid +:+ rest) rest)).
    rewrite length_app.
    assert (Nat.leb (S (String.length mid + String.length rest))
              (String.length rest) = false) as ->
      by (apply Nat.leb_gt; lia).
    by rewrite IH.
Qed.

Section MatcherFacts.
Context {R : Type}.

Lemma star_greedy_inv cls s (k : string -> option R) res :
  star_greedy cls s k = Some res ->
  exists mid s', s = mid +:+ s' /\ k s' = Some res.
Proof.
  induction s as [|c s IH]; simpl; intros H.
  - by exists "", "".
  - destruct (cls c).
    + destruct (star_greedy cls s k) as [r|] eqn:Hs.
      * destruct (IH H) as (mid & s' & -> & Hk).
        by exists (String c mid), s'.
      * by exists "", (String c s).
    + by exists "", (String c s).
Qed.

Lemma star_lazy_inv cls s (k : string -> option R) res :
  star_lazy cls s k = Some res ->
  exists mid s', s = mid +:+ s' /\ k s' = Some res.
Proof.
  induction s as [|c s IH]; simpl; intros H.
  - destruct (k "") eqn:Hk; [|done]. simplify_eq. by exists "", "".
  - destruct (k (String c s)) eqn:Hk.
    + simplify_eq. by exists "", (String c s).
    + destruct (cls c); [|done].
      destruct (IH H) as (mid & s' & -> & Hk').
      by exists (String c mid), s'.
Qed.

(** A successful match is a success of the continuation on a suffix of
    the input; group 1 is set if the expression has the group, and left
    alone otherwise. *)
Lemma rmatch_inv r : forall s cap (k : string -> option string -> option R) res,
  rmatch r s cap k = Some res ->
  exists mid s' cap',
    s = mid +:+ s' /\ k s' cap' = Some res
    /\ if has_group r then is_Some cap' else cap' = cap.
Proof.
  induction r as [l | greedy cls | r IH | r1 IH1 r2 IH2];
    intros s cap k res H; simpl in H.
  - destruct (drop_prefix l s) as [s'|] eqn:Hd; [|done].
    apply drop_prefix_Some in Hd. by exists l, s', cap.
  - destruct greedy.
    + apply star_greedy_inv in H as (mid & s' & Hs & Hk).
      by exists mid, s', cap.
    + apply star_lazy_inv in H as (mid & s' & Hs & Hk).
      by exists mid, s', cap.
  - apply IH in H as (mid & s' & cap' & Hs & Hk & _).
    exists mid, s', (Some (consumed s s')).
    split; [done|]. split; [exact Hk|]. simpl. by eexists.
  - apply IH1 in H as (mid1 & s1 & cap1 & Hs1 & Hk1 & Hc1).
    apply IH2 in Hk1 as (mid2 & s2 & cap2 & Hs2 & Hk2 & Hc2).
    exists (mid1 +:+ mid2), s2, cap2. split; [|split; [done|]].
    + by rewrite Hs1, Hs2, app_assoc.
    + simpl. destruct (has_group r2); [by rewrite orb_true_r|].
      rewrite orb_false_r. subst cap2. exact Hc1.
Qed.
End MatcherFacts.

Lemma match_here_inv r s m :
  match_here r s = Some m ->
  m_before m = ""
  /\ (exists rest, s = m_0 m +:+ rest)
  /\ (has_group r = true -> is_Some (m_1 m)).
Proof.
  unfold match_here. intros H.
  apply rmatch_inv in H as (mid & rest & cap & Hs & Hk & Hc).
  inversion Hk; subst; simpl. rewrite consumed_app.
  split; [done|]. split; [by exists rest|].
  intros Hg. by rewrite Hg in Hc.
Qed.

(** Element 0 of a match is the part of the input after [m_before]. *)
Lemma str_match_inv r s m :
  str_match r s = Some m ->
  (exists rest, s = m_before m +:+ m_0 m +:+ rest)
  /\ (has_group r = true -> is_Some (m_1 m)).
Proof.
  revert m. induction s as [|c s IH]; intros m H; simpl in H.
  - destruct (match_here r "") as [m'|] eqn:Hm; [|done].
    inversion H; subst.
    apply match_here_inv in Hm as (Hb & [rest Hs] & Hg).
    split; [|done]. exists rest. by rewrite Hb, app_empty_l.
  - destruct (match_here r (String c s)) as [m'|] eqn:Hm.
    + inversion H; subst.
      apply match_here_inv in Hm as (Hb & [rest Hs] & Hg).
      split; [|done]. exists rest. by rewrite Hb, app_empty_l.
    + destruct (str_match r s) as [m'|] eqn:Hs; [|done].
      inversion H; subst. destruct (IH m' eq_refl) as [[rest Hr] Hg].
      split; [|exact Hg]. exists rest. simpl. by rewrite app_String, <- Hr.
Qed.

Lemma returnRe_group1 s m :
  str_match returnRe s = Some m -> m_1 m = Some (group1 m).
Proof.
  intros H. apply str_match_inv in H as [_ Hg].
  destruct (Hg eq_refl) as [g Hm]. unfold group1. by rewrite Hm.
Qed.

Lemma replace_occurrence s pat repl :
  (exists a b, s = a +:+ pat +:+ b) ->
  lacks "$" repl = true ->
  exists before after,
    s = before +:+ pat +:+ after
    /\ replace s pat repl = before +:+ repl +:+ after.
Proof.
  intros (a & b & ->) Hrepl. unfold replace.
  destruct (find_first_occurs pat a b) as (before & after & Hf).
  rewrite Hf. exists before, after. split.
  - by apply find_first_Some.
  - by rewrite getSubstitution_literal.
Qed.

Lemma fragmentReturn_lacks_dollar originalJsx manualJsx :
  lacks "$" originalJsx = true ->
  lacks "$" manualJsx = true ->
  lacks "$" (fragmentReturn originalJsx manualJsx) = true.
Proof.
  intros Ho Hm. unfold fragmentReturn. rewrite !lacks_app, Ho, Hm.
  reflexivity.
Qed.

(** The splice as the comment in the source describes it, for texts without
    a dollar sign: the matched return statement, and nothing else, is
    replaced by one that returns a single [React.Fragment] holding the
    original JSX and then the manual JSX. *)
Lemma splice_wraps_svg_in_fragment generatedTsx manualJsx m :
  truthy (trim manualJsx) = true ->
  str_match returnRe generatedTsx = Some m ->
  startsWith (trim (group1 m)) "<svg" = true ->
  lacks "$" (trim (group1 m)) = true ->
  lacks "$" manualJsx = true ->
  exists before after,
    generatedTsx = before +:+ m_0 m +:+ after
    /\ spliceManualJsx generatedTsx manualJsx
       = before +:+ fragmentReturn (trim (group1 m)) manualJsx +:+ after.
Proof.
  intros Hman Hm Hsvg Ho Hd. unfold spliceManualJsx.
  rewrite Hman, Hm. cbv zeta. rewrite Hsvg.
  apply replace_occurrence.
  - apply str_match_inv in Hm as [[rest Hr] _]. by exists (m_before m), rest.
  - by apply fragmentReturn_lacks_dollar.
Qed.

(** C7 (the code at the failing input). The generated source has one return
    statement whose JSX is an [svg] element and the user markup is not
    empty, yet the user markup does not occur in the output: [replace]
    reads [$$] in the replacement text as a pattern for one dollar sign. *)
Theorem combine_rewrites_dollar_patterns :
  let generatedTsx := "const C = () => { return (<svg/>); }" in
  let manualJsx := "<p>Total: $$5</p>" in
  let out := combineCodePieces "T" generatedTsx manualJsx None in
  truthy (trim manualJsx) = true
  /\ (exists m, str_match returnRe generatedTsx = Some m
        /\ startsWith (trim (group1 m)) "<svg" = true)
  /\ out = "const C = () => { return (" +:+ LF +:+
           "    <React.Fragment>" +:+ LF +:+
           "      <svg/>" +:+ LF +:+
           "      {/* Additional JSX */}" +:+ LF +:+
           "      <p>Total: $5</p>" +:+ LF +:+
           "    </React.Fragment>" +:+ LF +:+
           "  ); }"
  /\ includes out manualJsx = false.
Proof.
  repeat split; try reflexivity.
  eexists. split; reflexivity.
Qed.

(** * Further properties *)

(** ** Algebra of the reducer *)

Lemma spread_spread {A : Type} (old : A) (p : option A) :
  spread (spread old p) p = spread old p.
Proof. by destruct p. Qed.

(** X1. Every reducer action other than [TOGGLE_BLOCK] is idempotent:
    dispatching it twice in a row leaves the state the first dispatch
    produced. *)
Theorem reducer_idempotent (s : FigmaStepsState) (a : FigmaStepsAction) :
  isToggle a = false ->
  figmaStepsReducer (figmaStepsReducer s a) a = figmaStepsReducer s a.
Proof.
  intros Ha. destruct a; try discriminate; simpl; unfold withUIState; simpl;
    try reflexivity.
  - f_equal. unfold mergeStepData. simpl. by rewrite !spread_spread.
  - f_equal. unfold mergeStepStatus. simpl. by rewrite !spread_spread.
  - f_equal. unfold mergeUIState. simpl. by rewrite !spread_spread.
  - do 2 f_equal. apply insert_insert_eq.
  - do 2 f_equal. unfold mergeProgress. simpl. by rewrite !spread_spread.
Qed.

Lemma reducer_idempotent_witness :
  let a := SET_ERROR "step1" "boom" in
  figmaStepsReducer (figmaStepsReducer initialState a) a
  = figmaStepsReducer initialState a.
Proof. apply reducer_idempotent. reflexivity. Defined.

(** X2. Two reducer actions that write different branches of the state
    commute. *)
Theorem reducer_branches_commute (s : FigmaStepsState)
    (a b : FigmaStepsAction) (x y : Branch) :
  branchOf a = Some x -> branchOf b = Some y -> x <> y ->
  figmaStepsReducer (figmaStepsReducer s a) b
  = figmaStepsReducer (figmaStepsReducer s b) a.
Proof.
  intros Ha Hb Hxy.
  destruct a, b; simpl in Ha, Hb; simplify_eq; reflexivity.
Qed.

Lemma reducer_branches_commute_witness :
  figmaStepsReducer
    (figmaStepsReducer initialState (SET_STEP_STATUS (status_step1 loading)))
    (SET_ERROR "step1" "boom")
  = figmaStepsReducer
      (figmaStepsReducer initialState (SET_ERROR "step1" "boom"))
      (SET_STEP_STATUS (status_step1 loading)).
Proof.
  apply (reducer_branches_commute _ _ _ InStepStatus InUIState);
    [reflexivity | reflexivity | discriminate].
Defined.

(** ** What the stage actions leave alone *)

Lemma keepsInputs_reducer s a :
  keepsInputs a = true -> userInputs (figmaStepsReducer s a) = userInputs s.
Proof.
  destruct a as [p|p|p|k e| |k|p|]; simpl; try discriminate; try reflexivity.
  - destruct p as [u t fd sv g c j m ft fc]; simpl.
    destruct u, t, c, j, m; simpl; try discriminate. reflexivity.
  - destruct p as [c t m]; simpl. destruct t; simpl; [discriminate|].
    reflexivity.
Qed.

Lemma keepsInputs_reduceAll acts : forall s,
  forallb keepsInputs acts = true ->
  userInputs (reduceAll s acts) = userInputs s.
Proof.
  induction acts as [|a acts IH]; intros s H; [done|].
  simpl in H. apply andb_true_iff in H as [Ha H].
  unfold reduceAll in *. simpl. rewrite (IH _ H).
  by apply keepsInputs_reducer.
Qed.

Lemma keepsInputs_reports (l : list string) :
  forallb keepsInputs
    (dispatched
       (map (fun status => Dispatch (SET_PROGRESS (progress_msg status))) l))
  = true.
Proof. induction l; simpl; done. Qed.

Lemma generateSvgCode_keepsInputs env s a :
  forallb keepsInputs (dispatched (trace (generateSvgCode env s a))) = true.
Proof. unfold generateSvgCode. unfold_monad. crunch; reflexivity. Qed.

Lemma autoGenerateSvg_keepsInputs env d f :
  forallb keepsInputs (dispatched (trace (autoGenerateSvg env d f))) = true.
Proof.
  unfold autoGenerateSvg. unfold_monad.
  destruct (extractSVGFromFigma env (file d)) as [e|svg]; simpl; [done|].
  pose proof (generateSvgCode_keepsInputs env initialState (Some svg)) as Hg.
  pose proof (generateSvgCode_returns env initialState (Some svg)) as Hr.
  destruct (generateSvgCode env initialState (Some svg)) as [tr [e|[]]];
    simpl in *; [discriminate Hr|]. exact Hg.
Qed.

Lemma connectToFigma_keepsInputs env s :
  forallb keepsInputs (dispatched (trace (connectToFigma env s))) = true.
Proof.
  unfold connectToFigma, connectBody, connectHandler. unfold_monad.
  crunch; try reflexivity.
  all: match goal with
       | H : autoGenerateSvg ?e ?d ?f = _ |- _ =>
           pose proof (autoGenerateSvg_keepsInputs e d f) as Ha;
           pose proof (autoGenerateSvg_returns e d f) as Hr;
           rewrite H in Ha, Hr; simpl in Ha, Hr
       end.
  all: try discriminate.
  all: exact Ha.
Qed.

Lemma generateFinalCode_keepsInputs env s :
  forallb keepsInputs (dispatched (trace (generateFinalCode env s))) = true.
Proof.
  unfold generateFinalCode. unfold_monad.
  destruct (generateCode env _) as [reported outcome].
  rewrite forEach_setProgress.
  destruct (negb _ && negb _); simpl; [done|].
  destruct outcome as [e|code]; simpl;
    rewrite ?app_nil_r, !dispatched_app, !forallb_app, keepsInputs_reports;
    reflexivity.
Qed.

(** X3. No business-logic action, whatever its collaborators answer,
    changes the URL, the token, the hand-written CSS, JSX and additional
    CSS, the panel flags, the preview mode or the progress total. *)
Theorem stage_actions_keep_user_inputs (s : FigmaStepsState)
    (a : UserAction) :
  isStageAction a = true ->
  userInputs (runAction s a) = userInputs s.
Proof.
  intros Ha. unfold runAction. apply keepsInputs_reduceAll.
  destruct a; try discriminate; simpl perform.
  - apply connectToFigma_keepsInputs.
  - apply generateSvgCode_keepsInputs.
  - unfold saveCssCode. unfold_monad. crunch; reflexivity.
  - apply generateFinalCode_keepsInputs.
  - reflexivity.
Qed.

Lemma stage_actions_keep_user_inputs_witness :
  userInputs (runAction readyState (DoConnectToFigma okEnv))
  = userInputs readyState.
Proof. apply stage_actions_keep_user_inputs. reflexivity. Defined.

(** ** Stage 2, invoked by the user *)

Lemma trim_empty_string : trim "" = "".
Proof. reflexivity. Qed.

Lemma truthy_true_iff s : truthy s = true <-> s <> "".
Proof. destruct s; split; try done. Qed.

Lemma truthy_of_trim s : truthy (trim s) = true -> truthy s = true.
Proof. by destruct s. Qed.

Lemma orElse_truthy s fallback :
  truthy s = true -> orElse (Some s) fallback = s.
Proof. unfold orElse. by intros ->. Qed.

Lemma svg_guard svg :
  negb (includes svg "<svg") && negb (includes svg "<path")
  && negb (includes svg "<rect") && negb (includes svg "<circle")
  = negb (hasSvgElement svg).
Proof.
  unfold hasSvgElement.
  by destruct (includes svg "<svg"), (includes svg "<path"),
    (includes svg "<rect"), (includes svg "<circle").
Qed.

(** The dispatches of [generateSvgCode] once the effective SVG text is not
    blank. *)
Lemma generateSvgCode_dispatched env s svgContent :
  let svg := orElse svgContent (svgCode (stepData s)) in
  truthy (trim svg) = true ->
  dispatched (trace (generateSvgCode env s svgContent))
  = [SET_STEP_STATUS (status_step2 loading); CLEAR_ERRORS;
     SET_PROGRESS (progress_at 2 "Converting SVG to TSX...")]
    ++ (if hasSvgElement svg then
          SET_PROGRESS (progress_msg "Parsing SVG structure...")
          :: match transformer env svg with
             | inr tsxCode =>
                 [SET_STEP_DATA (data_svg_tsx svg tsxCode);
                  SET_STEP_STATUS (status_step2 success);
                  SET_PROGRESS (progress_msg "TSX code generated successfully!")]
             | inl e =>
                 [SET_ERROR "step2" (svgErrorMessage e);
                  SET_STEP_STATUS (status_step2 error);
                  SET_PROGRESS (progress_msg "SVG conversion failed")]
             end
        else
          [SET_ERROR "step2"
             (svgErrorMessage
                (ErrorObj
                   "Invalid SVG: No SVG elements found in the provided code"));
           SET_STEP_STATUS (status_step2 error);
           SET_PROGRESS (progress_msg "SVG conversion failed")]).
Proof.
  intros svg Hsvg. unfold generateSvgCode. fold svg.
  rewrite Hsvg, svg_guard. unfold_monad.
  destruct (hasSvgElement svg); simpl; [|reflexivity].
  destruct (transformer env svg); reflexivity.
Qed.

(** X4. With a blank effective SVG text (the argument, or the stored
    [svgCode] when the argument is missing or empty), [generateSvgCode] does
    nothing but record the step2 error: the state it leaves is the state it
    found with that one error entry written, so no status changes and the
    other error entries stay. *)
Theorem generateSvgCode_blank (env : Env) (s : FigmaStepsState)
    (svgContent : option string) :
  trim (orElse svgContent (svgCode (stepData s))) = "" ->
  runAction s (DoGenerateSvgCode env svgContent)
  = figmaStepsReducer s (SET_ERROR "step2" "Please provide SVG code").
Proof.
  intros H. unfold runAction. simpl perform. unfold generateSvgCode.
  rewrite H. reflexivity.
Qed.

Lemma generateSvgCode_blank_witness :
  runAction initialState (DoGenerateSvgCode okEnv (Some "   "))
  = figmaStepsReducer initialState
      (SET_ERROR "step2" "Please provide SVG code").
Proof. apply generateSvgCode_blank. reflexivity. Defined.

(** X5. A text that is not blank but contains none of [<svg], [<path],
    [<rect] and [<circle] is rejected before the transformer is consulted:
    stage 2 ends in [error], the only error entry is the invalid-SVG message
    with its hint, and the step data are untouched. *)
Theorem generateSvgCode_no_svg_element (env : Env) (s : FigmaStepsState)
    (svgContent : option string) :
  let svg := orElse svgContent (svgCode (stepData s)) in
  truthy (trim svg) = true ->
  hasSvgElement svg = false ->
  let s' := runAction s (DoGenerateSvgCode env svgContent) in
  step2 (stepStatus s') = error
  /\ errors (uiState s')
     = {[ "step2" :=
            "Invalid SVG: No SVG elements found in the provided code. Please ensure your input contains valid SVG elements like <svg>, <path>, <rect>, etc." ]}
  /\ stepData s' = stepData s
  /\ message (progress (uiState s')) = "SVG conversion failed".
Proof.
  intros svg Ht Hn s'. subst s'. unfold runAction. simpl perform.
  rewrite (generateSvgCode_dispatched env s svgContent Ht). fold svg.
  rewrite Hn. simpl. repeat split.
Qed.

Lemma generateSvgCode_no_svg_element_witness :
  step2 (stepStatus
           (runAction initialState (DoGenerateSvgCode okEnv (Some "<div/>"))))
  = error.
Proof.
  exact (proj1 (generateSvgCode_no_svg_element okEnv initialState
                  (Some "<div/>") eq_refl eq_refl)).
Defined.

(** X6. When the text has an SVG element and the transformer answers,
    stage 2 ends in [success] with the effective text stored as [svgCode]
    and the answer as [generatedTsxCode]; every error entry is gone, the
    progress stands at 2, and the document data, the final outputs and the
    other three statuses are as before. *)
Theorem generateSvgCode_success (env : Env) (s : FigmaStepsState)
    (svgContent : option string) (tsxCode : string) :
  let svg := orElse svgContent (svgCode (stepData s)) in
  truthy (trim svg) = true ->
  hasSvgElement svg = true ->
  transformer env svg = inr tsxCode ->
  let s' := runAction s (DoGenerateSvgCode env svgContent) in
  svgCode (stepData s') = svg
  /\ generatedTsxCode (stepData s') = tsxCode
  /\ step2 (stepStatus s') = success
  /\ errors (uiState s') = ∅
  /\ current (progress (uiState s')) = 2%N
  /\ message (progress (uiState s')) = "TSX code generated successfully!"
  /\ figmaData (stepData s') = figmaData (stepData s)
  /\ finalTsxCode (stepData s') = finalTsxCode (stepData s)
  /\ finalCssCode (stepData s') = finalCssCode (stepData s)
  /\ step1 (stepStatus s') = step1 (stepStatus s)
  /\ step3 (stepStatus s') = step3 (stepStatus s)
  /\ step4 (stepStatus s') = step4 (stepStatus s).
Proof.
  intros svg Ht Hh Htr s'. subst s'. unfold runAction. simpl perform.
  rewrite (generateSvgCode_dispatched env s svgContent Ht). fold svg.
  rewrite Hh, Htr. simpl. repeat split.
Qed.

Lemma generateSvgCode_success_witness :
  generatedTsxCode
    (stepData (runAction initialState
                 (DoGenerateSvgCode okEnv (Some "<svg></svg>"))))
  = "const C = () => { return (<svg/>); }".
Proof.
  exact (proj1 (proj2 (generateSvgCode_success okEnv initialState
                         (Some "<svg></svg>") _ eq_refl eq_refl eq_refl))).
Defined.

(** X7. When the transformer throws, stage 2 ends in [error], the step data
    are untouched and the only error entry is the step2 message: the thrown
    message with a hint appended if it contains [Invalid SVG], else the fixed
    parse-failure text if it contains [parsing], else the thrown message
    itself, and [SVG conversion failed] for a thrown value that is not an
    [Error]. *)
Theorem generateSvgCode_transformer_failure (env : Env) (s : FigmaStepsState)
    (svgContent : option string) (e : Thrown) :
  let svg := orElse svgContent (svgCode (stepData s)) in
  truthy (trim svg) = true ->
  hasSvgElement svg = true ->
  transformer env svg = inl e ->
  let s' := runAction s (DoGenerateSvgCode env svgContent) in
  step2 (stepStatus s') = error
  /\ stepData s' = stepData s
  /\ (exists shown, errors (uiState s') = {[ "step2" := shown ]}
      /\ match e with
         | NonError => shown = "SVG conversion failed"
         | ErrorObj m =>
             (includes m "Invalid SVG" = true ->
              shown = m +:+ ". Please ensure your input contains valid SVG elements like <svg>, <path>, <rect>, etc.")
             /\ (includes m "Invalid SVG" = false ->
                 includes m "parsing" = true ->
                 shown = "SVG parsing failed. Please check your SVG syntax and try again.")
             /\ (includes m "Invalid SVG" = false ->
                 includes m "parsing" = false -> shown = m)
         end).
Proof.
  intros svg Ht Hh Htr s'. subst s'. unfold runAction. simpl perform.
  rewrite (generateSvgCode_dispatched env s svgContent Ht). fold svg.
  rewrite Hh, Htr. simpl. repeat split.
  exists (svgErrorMessage e). split; [reflexivity|].
  destruct e as [m|]; [|reflexivity]. simpl.
  repeat split.
  - by intros ->.
  - by intros -> ->.
  - by intros -> ->.
Qed.

Lemma generateSvgCode_transformer_failure_witness :
  step2 (stepStatus
           (runAction initialState
              (DoGenerateSvgCode
                 (stage2Env (inr "<svg/>") (inl (ErrorObj "parsing error")))
                 (Some "<svg></svg>"))))
  = error.
Proof.
  exact (proj1 (generateSvgCode_transformer_failure
                  (stage2Env (inr "<svg/>") (inl (ErrorObj "parsing error")))
                  initialState (Some "<svg></svg>") _
                  eq_refl eq_refl eq_refl)).
Defined.

(** ** Stage 3 *)

(** X8. [saveCssCode] with a blank [cssCode] only records the step3 error
    (no status changes, other error entries stay); with a [cssCode] that is
    not blank it sets stage 3 to [success], empties the errors, puts the
    progress at 3, and leaves the step data and the other statuses as they
    were. *)
Theorem saveCssCode_outcomes (s : FigmaStepsState) :
  (trim (cssCode (stepData s)) = "" ->
   runAction s DoSaveCssCode
   = figmaStepsReducer s (SET_ERROR "step3" "Please provide CSS code"))
  /\ (trim (cssCode (stepData s)) <> "" ->
      let s' := runAction s DoSaveCssCode in
      step3 (stepStatus s') = success
      /\ errors (uiState s') = ∅
      /\ current (progress (uiState s')) = 3%N
      /\ message (progress (uiState s')) = "CSS code saved successfully!"
      /\ stepData s' = stepData s
      /\ step1 (stepStatus s') = step1 (stepStatus s)
      /\ step2 (stepStatus s') = step2 (stepStatus s)
      /\ step4 (stepStatus s') = step4 (stepStatus s)).
Proof.
  unfold runAction. simpl perform. unfold saveCssCode. split; intros H.
  - rewrite H. reflexivity.
  - apply truthy_true_iff in H. rewrite H. simpl. repeat split.
Qed.

Lemma saveCssCode_outcomes_witness :
  step3 (stepStatus
           (runAction (draftState "" ".a {}" "" "" None) DoSaveCssCode))
  = success.
Proof.
  assert (H : trim (cssCode (stepData (draftState "" ".a {}" "" "" None)))
              <> "") by discriminate.
  exact (proj1 (proj2 (saveCssCode_outcomes _) H)).
Defined.

(** ** Stage 4 *)

Lemma reports_collapse (l : list string) : forall s,
  reduceAll s
    (dispatched
       (map (fun status => Dispatch (SET_PROGRESS (progress_msg status))) l))
  = match last l with
    | Some m => figmaStepsReducer s (SET_PROGRESS (progress_msg m))
    | None => s
    end.
Proof.
  induction l as [|x l IH]; intros s; [done|].
  unfold reduceAll in *. simpl. rewrite IH.
  destruct l as [|y l]; [reflexivity|].
  rewrite last_cons_cons.
  destruct (last (y :: l)) eqn:Hl; [reflexivity|].
  by apply last_None in Hl.
Qed.

(** The dispatches of [generateFinalCode] once one of the two hand-written
    texts is not blank. *)
Lemma generateFinalCode_dispatched env s reported outcome :
  negb (truthy (trim (jsxCode (stepData s))))
  && negb (truthy (trim (moreCssCode (stepData s)))) = false ->
  generateCode env (mbind file (figmaData (stepData s)))
    = (reported, outcome) ->
  dispatched (trace (generateFinalCode env s))
  = [SET_STEP_STATUS (status_step4 loading); CLEAR_ERRORS;
     SET_PROGRESS (progress_at 4 "Generating final code...");
     SET_PROGRESS (progress_msg "Optimizing code...")]
    ++ dispatched
         (map (fun status => Dispatch (SET_PROGRESS (progress_msg status)))
            reported)
    ++ match outcome with
       | inr _ =>
           [SET_PROGRESS (progress_msg "Combining code pieces...");
            SET_STEP_DATA
              (data_final
                 (combineCodePieces (clock env 0)
                    (generatedTsxCode (stepData s)) (jsxCode (stepData s))
                    (figmaData (stepData s)))
                 (combineCssCode (clock env 1) (cssCode (stepData s))
                    (moreCssCode (stepData s)) (figmaData (stepData s))));
            SET_STEP_STATUS (status_step4 success);
            SET_PROGRESS (progress_msg "Final code generated successfully!")]
       | inl e =>
           [SET_ERROR "step4" (messageOr e "Generation failed");
            SET_STEP_STATUS (status_step4 error);
            SET_PROGRESS (progress_msg "Generation failed")]
       end.
Proof.
  intros Hg Hgen. unfold generateFinalCode. rewrite Hg, Hgen.
  rewrite forEach_setProgress. unfold_monad.
  destruct outcome as [e|code]; simpl;
    rewrite ?app_nil_r, !dispatched_app; reflexivity.
Qed.

(** X9. With the manual JSX and the additional CSS both blank,
    [generateFinalCode] only records the step4 error: no status changes, the
    engine's reports are not shown, and the other error entries stay. *)
Theorem generateFinalCode_blank (env : Env) (s : FigmaStepsState) :
  trim (jsxCode (stepData s)) = "" ->
  trim (moreCssCode (stepData s)) = "" ->
  runAction s (DoGenerateFinalCode env)
  = figmaStepsReducer s
      (SET_ERROR "step4" "Please provide JSX or additional CSS code").
Proof.
  intros Hj Hm. unfold runAction. simpl perform. unfold generateFinalCode.
  rewrite Hj, Hm. reflexivity.
Qed.

Lemma generateFinalCode_blank_witness :
  runAction initialState (DoGenerateFinalCode okEnv)
  = figmaStepsReducer initialState
      (SET_ERROR "step4" "Please provide JSX or additional CSS code").
Proof. apply generateFinalCode_blank; reflexivity. Defined.

(** X10. When the engine settles without throwing, stage 4 ends in
    [success] and the final outputs are the two combiner results computed
    from the step data the action started with; the code the engine returns
    is not used. The errors are empty, the progress stands at 4, and the
    rest of the step data and the other statuses are as before. *)
Theorem generateFinalCode_success (env : Env) (s : FigmaStepsState)
    (reported : list string) (code : string) :
  negb (truthy (trim (jsxCode (stepData s))))
  && negb (truthy (trim (moreCssCode (stepData s)))) = false ->
  generateCode env (mbind file (figmaData (stepData s)))
    = (reported, inr code) ->
  let s' := runAction s (DoGenerateFinalCode env) in
  finalTsxCode (stepData s')
    = combineCodePieces (clock env 0) (generatedTsxCode (stepData s))
        (jsxCode (stepData s)) (figmaData (stepData s))
  /\ finalCssCode (stepData s')
     = combineCssCode (clock env 1) (cssCode (stepData s))
         (moreCssCode (stepData s)) (figmaData (stepData s))
  /\ step4 (stepStatus s') = success
  /\ errors (uiState s') = ∅
  /\ current (progress (uiState s')) = 4%N
  /\ message (progress (uiState s')) = "Final code generated successfully!"
  /\ figmaData (stepData s') = figmaData (stepData s)
  /\ svgCode (stepData s') = svgCode (stepData s)
  /\ generatedTsxCode (stepData s') = generatedTsxCode (stepData s)
  /\ step1 (stepStatus s') = step1 (stepStatus s)
  /\ step2 (stepStatus s') = step2 (stepStatus s)
  /\ step3 (stepStatus s') = step3 (stepStatus s).
Proof.
  intros Hg Hgen s'. subst s'. unfold runAction. simpl perform.
  rewrite (generateFinalCode_dispatched env s reported _ Hg Hgen).
  rewrite !reduceAll_app, reports_collapse.
  destruct (last reported); simpl; repeat split.
Qed.

Lemma generateFinalCode_success_witness :
  step4 (stepStatus
           (runAction (draftState "" "" "" ".b {}" None)
              (DoGenerateFinalCode okEnv)))
  = success.
Proof.
  exact (proj1 (proj2 (proj2
    (generateFinalCode_success okEnv (draftState "" "" "" ".b {}" None)
       _ _ eq_refl eq_refl)))).
Defined.

(** X11. When the engine throws, stage 4 ends in [error], the step data
    (the final outputs among them) are untouched, and the only error entry
    is the step4 message: the thrown message, or [Generation failed] for a
    thrown value that is not an [Error]. *)
Theorem generateFinalCode_failure (env : Env) (s : FigmaStepsState)
    (reported : list string) (e : Thrown) :
  negb (truthy (trim (jsxCode (stepData s))))
  && negb (truthy (trim (moreCssCode (stepData s)))) = false ->
  generateCode env (mbind file (figmaData (stepData s)))
    = (reported, inl e) ->
  let s' := runAction s (DoGenerateFinalCode env) in
  step4 (stepStatus s') = error
  /\ stepData s' = stepData s
  /\ errors (uiState s')
     = {[ "step4" := match e with
                     | ErrorObj m => m
                     | NonError => "Generation failed"
                     end ]}
  /\ message (progress (uiState s')) = "Generation failed".
Proof.
  intros Hg Hgen s'. subst s'. unfold runAction. simpl perform.
  rewrite (generateFinalCode_dispatched env s reported _ Hg Hgen).
  rewrite !reduceAll_app, reports_collapse.
  destruct (last reported); simpl; repeat split.
Qed.

Lemma generateFinalCode_failure_witness :
  step4 (stepStatus
           (runAction (draftState "" "" "<p/>" "" None)
              (DoGenerateFinalCode
                 (stage4Env (["10%"], inl (ErrorObj "engine down"))))))
  = error.
Proof.
  exact (proj1
    (generateFinalCode_failure
       (stage4Env (["10%"], inl (ErrorObj "engine down")))
       (draftState "" "" "<p/>" "" None) _ _ eq_refl eq_refl)).
Defined.

(** ** Export *)

Lemma truthy_app a b : truthy (a +:+ b) = truthy a || truthy b.
Proof. by destruct a. Qed.

Lemma combineCssCode_truthy now baseCss additionalCss fd :
  truthy (combineCssCode now baseCss additionalCss fd) = true.
Proof.
  unfold combineCssCode. rewrite truthy_app.
  change (truthy responsiveUtilities) with true. apply orb_true_r.
Qed.

Lemma getSubstitution_truthy matched before after templ :
  startsWith templ "r" = true ->
  truthy (getSubstitution matched before after templ) = true.
Proof.
  intros H. destruct templ as [|c t]; unfold startsWith in H;
    cbn [drop_prefix] in H; [discriminate|].
  destruct (Ascii.eqb "r" c) eqn:Hc; [|discriminate].
  apply Ascii.eqb_eq in Hc as <-. reflexivity.
Qed.

Lemma replace_truthy s pat repl :
  truthy s = true -> startsWith repl "r" = true ->
  truthy (replace s pat repl) = true.
Proof.
  intros Hs Hr. unfold replace.
  destruct (find_first pat s) as [[before after]|]; [|exact Hs].
  rewrite !truthy_app, (getSubstitution_truthy _ _ _ _ Hr).
  by rewrite orb_true_r.
Qed.

Lemma spliceManualJsx_truthy generatedTsx manualJsx :
  truthy generatedTsx = true ->
  truthy (spliceManualJsx generatedTsx manualJsx) = true.
Proof.
  intros Hg. unfold spliceManualJsx.
  destruct (truthy (trim manualJsx)); [|exact Hg].
  destruct (str_match returnRe generatedTsx) as [m|]; [|exact Hg].
  cbv zeta. destruct (startsWith _ _); by apply replace_truthy.
Qed.

Lemma combineCodePieces_truthy now generatedTsx manualJsx fd :
  generatedTsx <> "" \/ fd <> None ->
  truthy (combineCodePieces now generatedTsx manualJsx fd) = true.
Proof.
  intros H. unfold combineCodePieces. destruct fd as [d|].
  - rewrite truthy_app. reflexivity.
  - destruct H as [H|H]; [|done].
    apply spliceManualJsx_truthy. by apply truthy_true_iff.
Qed.

Lemma combineCodePieces_nothing now manualJsx :
  combineCodePieces now "" manualJsx None = "".
Proof.
  unfold combineCodePieces, spliceManualJsx.
  change (str_match returnRe "") with (@None MatchResult).
  by destruct (truthy (trim manualJsx)).
Qed.

(** X12. After a stage-4 run that ended in [success], [downloadCode] hands
    over exactly two files, [GeneratedComponent.tsx] and then
    [GeneratedComponent.css], holding the two final outputs, provided the
    generated TSX was not empty or document data were present. With an empty
    generated TSX and no document data the final TSX is empty and
    [downloadCode] hands over nothing, although stage 4 shows [success]. *)
Theorem download_after_final_code (env : Env) (s : FigmaStepsState)
    (reported : list string) (code : string) :
  negb (truthy (trim (jsxCode (stepData s))))
  && negb (truthy (trim (moreCssCode (stepData s)))) = false ->
  generateCode env (mbind file (figmaData (stepData s)))
    = (reported, inr code) ->
  let s' := runAction s (DoGenerateFinalCode env) in
  step4 (stepStatus s') = success
  /\ (generatedTsxCode (stepData s) <> "" \/ figmaData (stepData s) <> None ->
      downloadedFiles s'
      = [ {| d_name := "GeneratedComponent.tsx"; d_type := "text/plain";
             d_content :=
               combineCodePieces (clock env 0) (generatedTsxCode (stepData s))
                 (jsxCode (stepData s)) (figmaData (stepData s)) |};
          {| d_name := "GeneratedComponent.css"; d_type := "text/plain";
             d_content :=
               combineCssCode (clock env 1) (cssCode (stepData s))
                 (moreCssCode (stepData s)) (figmaData (stepData s)) |} ])
  /\ (generatedTsxCode (stepData s) = "" -> figmaData (stepData s) = None ->
      downloadedFiles s' = []).
Proof.
  intros Hg Hgen s'.
  destruct (generateFinalCode_success env s reported code Hg Hgen)
    as (Ht & Hc & H4 & _).
  fold s' in Ht, Hc, H4. split; [exact H4|].
  unfold downloadedFiles. rewrite Ht, Hc. split.
  - intros H.
    by rewrite (combineCodePieces_truthy _ _ _ _ H), combineCssCode_truthy.
  - intros Hgt Hfd. by rewrite Hgt, Hfd, combineCodePieces_nothing.
Qed.

Lemma download_after_final_code_witness :
  downloadedFiles
    (runAction (draftState "" "" "" ".b {}" None) (DoGenerateFinalCode okEnv))
  = [].
Proof.
  exact (proj2 (proj2
    (download_after_final_code okEnv (draftState "" "" "" ".b {}" None)
       _ _ eq_refl eq_refl)) eq_refl eq_refl).
Defined.

(** ** Stage 1: failures *)

Lemma onlyProgressMessage_reduceAll acts : forall s,
  forallb onlyProgressMessage acts = true ->
  stepData (reduceAll s acts) = stepData s
  /\ stepStatus (reduceAll s acts) = stepStatus s
  /\ errors (uiState (reduceAll s acts)) = errors (uiState s)
  /\ current (progress (uiState (reduceAll s acts)))
     = current (progress (uiState s)).
Proof.
  induction acts as [|a acts IH]; intros s H; [done|].
  simpl in H. apply andb_true_iff in H as [Ha H].
  unfold reduceAll in *. simpl.
  destruct (IH (figmaStepsReducer s a) H) as (-> & -> & -> & ->).
  destruct a as [| | | | | |p|]; try discriminate.
  destruct p as [[c|] t m]; [discriminate|]. done.
Qed.

(** Up to a throw, the [try] block of [connectToFigma] has dispatched
    progress messages only. *)
Lemma connectBody_throws env url token tr e :
  connectBody env url token = (tr, inl e) ->
  forallb onlyProgressMessage (dispatched tr) = true.
Proof.
  unfold connectBody. unfold_monad. crunch; intros H; simplify_eq;
    try reflexivity.
  match goal with
  | H : autoGenerateSvg ?e ?d ?f = _ |- _ =>
      pose proof (autoGenerateSvg_returns e d f) as Hr;
      rewrite H in Hr; discriminate Hr
  end.
Qed.

(** X13. Whenever the [try] block of [connectToFigma] throws (a rejected
    validation or any failing fetch), the step data are untouched, so no
    partial document is stored; stage 1 ends in [error], stages 2 to 4 keep
    their statuses, the only error entry is the step1 message, and the
    progress stands at 1 with the message [Connection failed]. *)
Theorem connect_failure_leaves_data (env : Env) (s : FigmaStepsState)
    (tr : list Event) (e : Thrown) :
  truthy (trim (figmaUrl (stepData s))) = true ->
  truthy (trim (accessToken (stepData s))) = true ->
  connectBody env (figmaUrl (stepData s)) (accessToken (stepData s))
    = (tr, inl e) ->
  let s' := runAction s (DoConnectToFigma env) in
  stepData s' = stepData s
  /\ stepStatus s'
     = {| step1 := error; step2 := step2 (stepStatus s);
          step3 := step3 (stepStatus s); step4 := step4 (stepStatus s) |}
  /\ errors (uiState s') = {[ "step1" := connectErrorMessage e ]}
  /\ current (progress (uiState s')) = 1%N
  /\ message (progress (uiState s')) = "Connection failed".
Proof.
  intros Hu Ht Hb s'. subst s'. unfold runAction. simpl perform.
  rewrite (connectToFigma_failure env s tr e Hu Ht Hb).
  rewrite !dispatched_app, !reduceAll_app.
  set (s1 := reduceAll s _).
  destruct (onlyProgressMessage_reduceAll _ s1 (connectBody_throws _ _ _ _ _ Hb))
    as (Hd & Hs & He & Hc).
  simpl. rewrite Hd, Hs, He, Hc. subst s1. simpl. repeat split.
Qed.

Lemma connect_failure_leaves_data_witness :
  stepData (runAction readyState (DoConnectToFigma (fetchFailsEnv "HTTP 500")))
  = stepData readyState.
Proof.
  exact (proj1 (connect_failure_leaves_data (fetchFailsEnv "HTTP 500")
                  readyState _ _ eq_refl eq_refl eq_refl)).
Defined.

(** X14. A URL the validator rejects, or for which it gives no file id,
    ends the connect action before anything is fetched: stage 1 ends in
    [error] and the step1 message is the validator's error text, or
    [Invalid Figma URL] when it gave none, classified like any thrown
    message. *)
Theorem connect_invalid_reference (env : Env) (s : FigmaStepsState)
    (v : Validation) :
  truthy (trim (figmaUrl (stepData s))) = true ->
  truthy (trim (accessToken (stepData s))) = true ->
  validateFigmaUrl env (figmaUrl (stepData s)) = inr v ->
  valid v = false \/ orElse (v_fileId v) "" = "" ->
  let s' := runAction s (DoConnectToFigma env) in
  dispatched (trace (connectToFigma env s))
  = [SET_STEP_STATUS (status_step1 loading); CLEAR_ERRORS;
     SET_PROGRESS (progress_at 1 "Connecting to Figma...");
     SET_ERROR "step1"
       (connectErrorMessage
          (ErrorObj (orElse (v_error v) "Invalid Figma URL")));
     SET_STEP_STATUS (status_step1 error);
     SET_PROGRESS (progress_msg "Connection failed")]
  /\ step1 (stepStatus s') = error
  /\ (orElse (v_error v) "" = "" ->
      errors (uiState s') = {[ "step1" := "Invalid Figma URL" ]}).
Proof.
  intros Hu Ht Hv Hbad s'.
  assert (Hb : connectBody env (figmaUrl (stepData s))
                 (accessToken (stepData s))
               = ([], inl (ErrorObj (orElse (v_error v) "Invalid Figma URL")))).
  { unfold connectBody. unfold_monad. rewrite Hv. simpl.
    assert (negb (valid v) || negb (truthy (orElse (v_fileId v) "")) = true)
      as ->; [|reflexivity].
    destruct Hbad as [-> | ->]; [done|]. apply orb_true_r. }
  pose proof (connectToFigma_failure env s _ _ Hu Ht Hb) as Htr.
  split; [by rewrite Htr|].
  subst s'. unfold runAction. simpl perform. rewrite Htr. simpl.
  split; [reflexivity|]. intros Hne. f_equal.
  unfold orElse in *. destruct (v_error v) as [m|]; [|reflexivity].
  destruct (truthy m) eqn:Hm; [|reflexivity].
  subst m. discriminate.
Qed.

Lemma connect_invalid_reference_witness :
  step1 (stepStatus
           (runAction readyState
              (DoConnectToFigma
                 (validationEnv
                    {| valid := false; v_fileId := None;
                       v_error := Some "Not a Figma URL" |}))))
  = error.
Proof.
  exact (proj1 (proj2
    (connect_invalid_reference
       (validationEnv {| valid := false; v_fileId := None;
                         v_error := Some "Not a Figma URL" |})
       readyState _ eq_refl eq_refl eq_refl (or_introl eq_refl)))).
Defined.

(** X15. The remaining classes of the step1 message. For a thrown [Error]
    whose message contains neither [Access denied] nor [403]: the not-found
    text if it contains [404]; else the invalid-token text if it contains
    [401]; else, if it does not contain [429] either, the thrown message
    itself. A message that contains [Access denied] gets the access-denied
    text, and a thrown value that is not an [Error] gets
    [Connection failed]. *)
Theorem connect_error_other_classes (env : Env) (s : FigmaStepsState)
    (tr : list Event) (e : Thrown) :
  truthy (trim (figmaUrl (stepData s))) = true ->
  truthy (trim (accessToken (stepData s))) = true ->
  connectBody env (figmaUrl (stepData s)) (accessToken (stepData s))
    = (tr, inl e) ->
  let shown := errors (uiState (runAction s (DoConnectToFigma env)))
                 !! "step1" in
  match e with
  | NonError => shown = Some "Connection failed"
  | ErrorObj m =>
      (includes m "Access denied" = true -> shown = Some msgAccessDenied)
      /\ (includes m "Access denied" = false -> includes m "403" = false ->
          (includes m "404" = true -> shown = Some msgNotFound)
          /\ (includes m "404" = false ->
              (includes m "401" = true -> shown = Some msgInvalidToken)
              /\ (includes m "401" = false -> includes m "429" = false ->
                  shown = Some m)))
  end.
Proof.
  intros Hu Ht Hb shown.
  destruct (connectToFigma_failure_state env s tr e Hu Ht Hb) as [_ He].
  subst shown. rewrite He. destruct e as [m|]; [|reflexivity]. simpl.
  split; [by intros ->|]. intros -> ->. simpl.
  split; [by intros ->|]. intros ->.
  split; [by intros ->|]. by intros -> ->.
Qed.

Lemma connect_error_other_classes_witness :
  errors (uiState (runAction readyState
                     (DoConnectToFigma (fetchFailsEnv "HTTP 404"))))
    !! "step1" = Some msgNotFound.
Proof.
  exact (proj1 (proj2
    (connect_error_other_classes (fetchFailsEnv "HTTP 404") readyState
       _ _ eq_refl eq_refl eq_refl) eq_refl eq_refl) eq_refl).
Defined.

(** ** Stage 1 into stage 2 *)

Lemma connectToFigma_success_dispatched env s fid figmaFile meta comps stys :
  stage1Fetches env s fid figmaFile meta comps stys ->
  let data := completeData figmaFile meta comps stys fid (clock env 0) in
  dispatched (trace (connectToFigma env s))
  = [SET_STEP_STATUS (status_step1 loading); CLEAR_ERRORS;
     SET_PROGRESS (progress_at 1 "Connecting to Figma...");
     SET_PROGRESS (progress_msg "Fetching Figma file data...");
     SET_PROGRESS (progress_msg "Getting metadata...");
     SET_STEP_DATA (data_figmaData data);
     SET_STEP_STATUS (status_step1 success);
     SET_PROGRESS (progress_msg "Connection successful!")]
    ++ dispatched (trace (autoGenerateSvg env data fid)).
Proof.
  intros (Hu & Ht & (v & Hv & Hvalid & Hfid) & Hfidt & Hf & Hm & Hc & Hs) data.
  unfold connectToFigma, connectBody. rewrite Hu, Ht. unfold_monad.
  rewrite Hv. simpl. rewrite Hvalid, Hfid, (orElse_truthy _ _ Hfidt), Hfidt.
  simpl. rewrite Hf. simpl. rewrite Hm. simpl. rewrite Hc. simpl.
  rewrite Hs. simpl. fold data.
  pose proof (autoGenerateSvg_returns env data fid) as Hr.
  destruct (autoGenerateSvg env data fid) as [l [e|[]]]; simpl in *;
    [discriminate Hr | reflexivity].
Qed.

Lemma autoGenerateSvg_dispatched env d f :
  dispatched (trace (autoGenerateSvg env d f))
  = [SET_STEP_STATUS (status_step2 loading);
     SET_PROGRESS (progress_at 2 "Extracting SVG from Figma...")]
    ++ match extractSVGFromFigma env (file d) with
       | inr svgContent =>
           [SET_STEP_DATA (data_svgCode svgContent);
            SET_PROGRESS (progress_msg "Converting SVG to TSX...")]
           ++ dispatched
                (trace (generateSvgCode env initialState (Some svgContent)))
       | inl e =>
           [SET_ERROR "step2" (messageOr e "SVG generation failed");
            SET_STEP_STATUS (status_step2 error);
            SET_PROGRESS (progress_msg "SVG generation failed")]
       end.
Proof.
  unfold autoGenerateSvg. unfold_monad.
  destruct (extractSVGFromFigma env (file d)) as [e|svg]; simpl; [done|].
  pose proof (generateSvgCode_returns env initialState (Some svg)) as Hr.
  destruct (generateSvgCode env initialState (Some svg)) as [tr [e|[]]];
    simpl in *; [discriminate Hr | reflexivity].
Qed.

Lemma generateSvgCode_blank_dispatched env s svgContent :
  trim (orElse svgContent (svgCode (stepData s))) = "" ->
  dispatched (trace (generateSvgCode env s svgContent))
  = [SET_ERROR "step2" "Please provide SVG code"].
Proof. intros H. unfold generateSvgCode. rewrite H. reflexivity. Qed.

(** X16. The automatic chain. When the connect action fetches everything,
    the extraction answers a text that has an SVG element and the
    transformer answers, one run of [connectToFigma] leaves stages 1 and 2
    in [success] with the bundle, the extracted SVG and the generated TSX
    stored, no error entry, and the progress at 2; stages 3 and 4 keep their
    statuses. *)
Theorem connect_runs_stage2 (env : Env) (s : FigmaStepsState)
    (fid : string) (figmaFile : FigmaFile) (meta : FileMetadata)
    (comps stys svg tsxCode : string) :
  stage1Fetches env s fid figmaFile meta comps stys ->
  extractSVGFromFigma env (Some figmaFile) = inr svg ->
  truthy (trim svg) = true ->
  hasSvgElement svg = true ->
  transformer env svg = inr tsxCode ->
  let s' := runAction s (DoConnectToFigma env) in
  figmaData (stepData s')
    = Some (completeData figmaFile meta comps stys fid (clock env 0))
  /\ svgCode (stepData s') = svg
  /\ generatedTsxCode (stepData s') = tsxCode
  /\ stepStatus s'
     = {| step1 := success; step2 := success;
          step3 := step3 (stepStatus s); step4 := step4 (stepStatus s) |}
  /\ errors (uiState s') = ∅
  /\ current (progress (uiState s')) = 2%N
  /\ message (progress (uiState s')) = "TSX code generated successfully!".
Proof.
  intros H1 Hx Ht Hh Htr s'. subst s'. unfold runAction. simpl perform.
  rewrite (connectToFigma_success_dispatched _ _ _ _ _ _ _ H1).
  rewrite autoGenerateSvg_dispatched. simpl file. rewrite Hx.
  assert (Hsvg : orElse (Some svg) (svgCode (stepData initialState)) = svg)
    by (apply orElse_truthy, truthy_of_trim, Ht).
  rewrite generateSvgCode_dispatched; rewrite Hsvg; [|exact Ht].
  rewrite Hh, Htr. simpl. repeat split.
Qed.

Lemma okEnv_fetches :
  stage1Fetches okEnv readyState "abc" sampleFile sampleMetadata "[]" "[]".
Proof.
  repeat split; try reflexivity. eexists. repeat split; reflexivity.
Defined.

Lemma connect_runs_stage2_witness :
  generatedTsxCode (stepData (runAction readyState (DoConnectToFigma okEnv)))
  = "const C = () => { return (<svg/>); }".
Proof.
  exact (proj1 (proj2 (proj2
    (connect_runs_stage2 okEnv readyState _ _ _ _ _ "<svg></svg>" _
       okEnv_fetches eq_refl eq_refl eq_refl eq_refl)))).
Defined.

(** X17. When the extraction answers a blank text, the connect action ends
    with stage 1 in [success] and stage 2 left in [loading]: the nested
    [generateSvgCode] returns after recording [Please provide SVG code]
    without writing a status. The bundle and the blank text are stored. *)
Theorem connect_leaves_stage2_loading (env : Env) (s : FigmaStepsState)
    (fid : string) (figmaFile : FigmaFile) (meta : FileMetadata)
    (comps stys svg : string) :
  stage1Fetches env s fid figmaFile meta comps stys ->
  extractSVGFromFigma env (Some figmaFile) = inr svg ->
  trim svg = "" ->
  let s' := runAction s (DoConnectToFigma env) in
  stepStatus s'
  = {| step1 := success; step2 := loading;
       step3 := step3 (stepStatus s); step4 := step4 (stepStatus s) |}
  /\ errors (uiState s') = {[ "step2" := "Please provide SVG code" ]}
  /\ figmaData (stepData s')
     = Some (completeData figmaFile meta comps stys fid (clock env 0))
  /\ svgCode (stepData s') = svg
  /\ generatedTsxCode (stepData s') = generatedTsxCode (stepData s).
Proof.
  intros H1 Hx Ht s'. subst s'. unfold runAction. simpl perform.
  rewrite (connectToFigma_success_dispatched _ _ _ _ _ _ _ H1).
  rewrite autoGenerateSvg_dispatched. simpl file. rewrite Hx.
  rewrite generateSvgCode_blank_dispatched.
  - simpl. repeat split.
  - unfold orElse. destruct (truthy svg); [exact Ht | reflexivity].
Qed.

Lemma connect_leaves_stage2_loading_witness :
  step2 (stepStatus
           (runAction readyState
              (DoConnectToFigma (stage2Env (inr "  ") (inr "unused")))))
  = loading.
Proof.
  assert (H1 : stage1Fetches (stage2Env (inr "  ") (inr "unused")) readyState
                 "abc" sampleFile sampleMetadata "[]" "[]").
  { repeat split; try reflexivity. eexists. repeat split; reflexivity. }
  exact (f_equal step2 (proj1
    (connect_leaves_stage2_loading _ readyState _ _ _ _ _ "  "
       H1 eq_refl eq_refl))).
Defined.

(** X18. When the extraction throws, the connect action ends with stage 1
    in [success] and stage 2 in [error]; the bundle is stored, the stored
    SVG and TSX are untouched, and the only error entry is the step2
    message: the thrown message, or [SVG generation failed] for a thrown
    value that is not an [Error]. *)
Theorem connect_extraction_failure (env : Env) (s : FigmaStepsState)
    (fid : string) (figmaFile : FigmaFile) (meta : FileMetadata)
    (comps stys : string) (e : Thrown) :
  stage1Fetches env s fid figmaFile meta comps stys ->
  extractSVGFromFigma env (Some figmaFile) = inl e ->
  let s' := runAction s (DoConnectToFigma env) in
  stepStatus s'
  = {| step1 := success; step2 := error;
       step3 := step3 (stepStatus s); step4 := step4 (stepStatus s) |}
  /\ errors (uiState s')
     = {[ "step2" := match e with
                     | ErrorObj m => m
                     | NonError => "SVG generation failed"
                     end ]}
  /\ figmaData (stepData s')
     = Some (completeData figmaFile meta comps stys fid (clock env 0))
  /\ svgCode (stepData s') = svgCode (stepData s)
  /\ generatedTsxCode (stepData s') = generatedTsxCode (stepData s).
Proof.
  intros H1 Hx s'. subst s'. unfold runAction. simpl perform.
  rewrite (connectToFigma_success_dispatched _ _ _ _ _ _ _ H1).
  rewrite autoGenerateSvg_dispatched. simpl file. rewrite Hx.
  simpl. repeat split.
Qed.

Lemma connect_extraction_failure_witness :
  step2 (stepStatus
           (runAction readyState
              (DoConnectToFigma
                 (stage2Env (inl (ErrorObj "no frames")) (inr "unused")))))
  = error.
Proof.
  assert (H1 : stage1Fetches
                 (stage2Env (inl (ErrorObj "no frames")) (inr "unused"))
                 readyState "abc" sampleFile sampleMetadata "[]" "[]").
  { repeat split; try reflexivity. eexists. repeat split; reflexivity. }
  exact (f_equal step2 (proj1
    (connect_extraction_failure _ readyState _ _ _ _ _ _ H1 eq_refl))).
Defined.

(** ** Stages invoked directly settle *)






(** ** The return pattern and the splice *)

Section MatcherLanguage.
Context {R : Type}.

Lemma star_greedy_sound cls s (k : string -> option R) res :
  star_greedy cls s k = Some res ->
  exists mid s', s = mid +:+ s' /\ all_in cls mid = true /\ k s' = Some res.
Proof.
  induction s as [|c s IH]; simpl; intros H.
  - by exists "", "".
  - destruct (cls c) eqn:Hc.
    + destruct (star_greedy cls s k) as [r|] eqn:Hs.
      * destruct (IH H) as (mid & s' & -> & Hm & Hk).
        exists (String c mid), s'. simpl. by rewrite Hc, Hm.
      * by exists "", (String c s).
    + by exists "", (String c s).
Qed.

Lemma star_lazy_sound cls s (k : string -> option R) res :
  star_lazy cls s k = Some res ->
  exists mid s', s = mid +:+ s' /\ all_in cls mid = true /\ k s' = Some res.
Proof.
  induction s as [|c s IH]; simpl; intros H.
  - destruct (k "") eqn:Hk; [|done]. simplify_eq. by exists "", "".
  - destruct (k (String c s)) eqn:Hk.
    + simplify_eq. by exists "", (String c s).
    + destruct (cls c) eqn:Hc; [|done].
      destruct (IH H) as (mid & s' & -> & Hm & Hk').
      exists (String c mid), s'. simpl. by rewrite Hc, Hm.
Qed.

(** What the matcher accepts is in the language. *)
Lemma rmatch_sound r : forall s cap (k : string -> option string -> option R)
    res,
  rmatch r s cap k = Some res ->
  exists mid s' cap',
    s = mid +:+ s' /\ matches r mid /\ k s' cap' = Some res.
Proof.
  induction r as [l | greedy cls | r IH | r1 IH1 r2 IH2];
    intros s cap k res H; simpl in H.
  - destruct (drop_prefix l s) as [s'|] eqn:Hd; [|done].
    apply drop_prefix_Some in Hd. by exists l, s', cap.
  - destruct greedy.
    + apply star_greedy_sound in H as (mid & s' & Hs & Hm & Hk).
      by exists mid, s', cap.
    + apply star_lazy_sound in H as (mid & s' & Hs & Hm & Hk).
      by exists mid, s', cap.
  - apply IH in H as (mid & s' & cap' & Hs & Hm & Hk).
    by exists mid, s', (Some (consumed s s')).
  - apply IH1 in H as (mid1 & s1 & cap1 & Hs1 & Hm1 & Hk1).
    apply IH2 in Hk1 as (mid2 & s2 & cap2 & Hs2 & Hm2 & Hk2).
    exists (mid1 +:+ mid2), s2, cap2. split; [|split; [|done]].
    + by rewrite Hs1, Hs2, app_assoc.
    + simpl. by exists mid1, mid2.
Qed.

Lemma star_greedy_total cls s (k : string -> option R) :
  is_Some (k s) -> is_Some (star_greedy cls s k).
Proof.
  intros Hk. destruct s as [|c s]; simpl; [done|].
  destruct (cls c); [|done]. by destruct (star_greedy cls s k).
Qed.

Lemma star_lazy_total cls s (k : string -> option R) :
  is_Some (k s) -> is_Some (star_lazy cls s k).
Proof.
  intros [r Hk]. destruct s as [|c s]; simpl; by rewrite Hk.
Qed.

Lemma star_greedy_complete cls w s' (k : string -> option R) :
  all_in cls w = true -> is_Some (k s') ->
  is_Some (star_greedy cls (w +:+ s') k).
Proof.
  intros Hw Hk. induction w as [|c w IH].
  - rewrite app_empty_l. by apply star_greedy_total.
  - simpl in Hw. apply andb_true_iff in Hw as [Hc Hw].
    rewrite app_String. simpl. rewrite Hc.
    destruct (IH Hw) as [r ->]. by eexists.
Qed.

Lemma star_lazy_complete cls w s' (k : string -> option R) :
  all_in cls w = true -> is_Some (k s') ->
  is_Some (star_lazy cls (w +:+ s') k).
Proof.
  intros Hw Hk. induction w as [|c w IH].
  - rewrite app_empty_l. by apply star_lazy_total.
  - simpl in Hw. apply andb_true_iff in Hw as [Hc Hw].
    rewrite app_String. simpl.
    destruct (k (String c (w +:+ s'))); [by eexists|].
    rewrite Hc. by apply IH.
Qed.

(** Where a text of the language stands at the head of the input and the
    continuation accepts what follows, the matcher succeeds. *)
Lemma rmatch_complete r : forall w s' cap
    (k : string -> option string -> option R),
  matches r w -> (forall c, is_Some (k s' c)) ->
  is_Some (rmatch r (w +:+ s') cap k).
Proof.
  induction r as [l | greedy cls | r IH | r1 IH1 r2 IH2];
    intros w s' cap k Hw Hk; simpl in Hw; simpl.
  - subst w. rewrite drop_prefix_app. apply Hk.
  - destruct greedy.
    + apply star_greedy_complete; [done | apply Hk].
    + apply star_lazy_complete; [done | apply Hk].
  - apply IH; [done|]. intros c. apply Hk.
  - destruct Hw as (w1 & w2 & -> & Hw1 & Hw2). rewrite app_assoc.
    apply IH1; [done|]. intros c. by apply IH2.
Qed.
End MatcherLanguage.

Lemma match_here_sound r s m :
  match_here r s = Some m ->
  m_before m = ""
  /\ matches r (m_0 m)
  /\ exists rest, s = m_0 m +:+ rest.
Proof.
  unfold match_here. intros H.
  apply rmatch_sound in H as (mid & rest & cap & Hs & Hm & Hk).
  simplify_eq. simpl. rewrite consumed_app. by eauto.
Qed.

Lemma match_here_complete r w b :
  matches r w -> is_Some (match_here r (w +:+ b)).
Proof.
  intros Hw. unfold match_here. apply rmatch_complete; [done|].
  intros c. by eexists.
Qed.

Lemma str_match_sound r s m :
  str_match r s = Some m ->
  matches r (m_0 m) /\ exists rest, s = m_before m +:+ m_0 m +:+ rest.
Proof.
  revert m. induction s as [|c s IH]; intros m H; simpl in H.
  - destruct (match_here r "") as [m'|] eqn:Hm; [|done]. simplify_eq.
    apply match_here_sound in Hm as (Hb & Hl & [rest Hr]).
    split; [done|]. exists rest. by rewrite Hb, app_empty_l.
  - destruct (match_here r (String c s)) as [m'|] eqn:Hm.
    + simplify_eq.
      apply match_here_sound in Hm as (Hb & Hl & [rest Hr]).
      split; [done|]. exists rest. by rewrite Hb, app_empty_l.
    + destruct (str_match r s) as [m'|] eqn:Hs; [|done].
      simpl in H. simplify_eq.
      destruct (IH m' eq_refl) as [Hl [rest Hr]]. split; [exact Hl|].
      exists rest. simpl. by rewrite app_String, <- Hr.
Qed.

(** No occurrence of the matched text starts before the match. *)
Lemma str_match_leftmost r s : forall m a b,
  str_match r s = Some m ->
  s = a +:+ m_0 m +:+ b ->
  String.length (m_before m) <= String.length a.
Proof.
  induction s as [|c s IH]; intros m a b H Hs; simpl in H.
  - destruct (match_here r "") as [m'|] eqn:Hm; [|done]. simplify_eq.
    apply match_here_sound in Hm as (-> & _). simpl. lia.
  - destruct (match_here r (String c s)) as [m'|] eqn:Hm.
    + simplify_eq. apply match_here_sound in Hm as (-> & _). simpl. lia.
    + destruct (str_match r s) as [m'|] eqn:Hs'; [|done].
      simpl in H. simplify_eq. simpl in *. destruct a as [|c' a].
      * exfalso. rewrite app_empty_l in Hs.
        destruct (str_match_sound _ _ _ Hs') as [Hl _].
        destruct (match_here_complete r (m_0 m') b Hl) as [x Hx].
        rewrite <- Hs in Hx. congruence.
      * rewrite app_String in Hs. simplify_eq.
        specialize (IH m' a b eq_refl eq_refl). simpl. lia.
Qed.

Lemma find_first_least n h : forall x y a b,
  find_first n h = Some (x, y) ->
  h = a +:+ n +:+ b ->
  String.length x <= String.length a.
Proof.
  induction h as [|c h IH]; intros x y a b H Hh;
    rewrite find_first_unfold in H.
  - destruct (drop_prefix n ""); [|done]. simplify_eq. simpl. lia.
  - destruct (drop_prefix n (String c h)) eqn:Hd.
    + simplify_eq. simpl. lia.
    + destruct (find_first n h) as [[x' y']|] eqn:Hf; [|done]. simplify_eq.
      destruct a as [|c' a].
      * rewrite app_empty_l in Hh. rewrite Hh, drop_prefix_app in Hd. done.
      * rewrite app_String in Hh. simplify_eq.
        specialize (IH x' y a b eq_refl eq_refl). simpl. lia.
Qed.

Lemma app_same_length a : forall b u v,
  a +:+ u = b +:+ v -> String.length a = String.length b ->
  a = b /\ u = v.
Proof.
  induction a as [|c a IH]; intros [|d b] u v H Hl; simpl in Hl;
    try discriminate.
  - by rewrite !app_empty_l in H.
  - rewrite !app_String in H. simplify_eq.
    destruct (IH b u v) as [-> ->]; [done | lia | done].
Qed.

Lemma str_match_first_occurrence r s m :
  str_match r s = Some m ->
  exists rest,
    s = m_before m +:+ m_0 m +:+ rest
    /\ find_first (m_0 m) s = Some (m_before m, rest).
Proof.
  intros H. destruct (str_match_sound _ _ _ H) as [_ [rest Hs]].
  exists rest. split; [exact Hs|].
  destruct (find_first_occurs (m_0 m) (m_before m) rest) as (x & y & Hf).
  rewrite <- Hs in Hf. rewrite Hf.
  pose proof (find_first_Some _ _ _ _ Hf) as Hxy.
  pose proof (find_first_least _ _ _ _ _ _ Hf Hs) as H1.
  pose proof (str_match_leftmost _ _ _ _ _ H Hxy) as H2.
  destruct (app_same_length x (m_before m) (m_0 m +:+ y) (m_0 m +:+ rest))
    as [-> Hy]; [congruence | lia |].
  by apply (inj (String.app (m_0 m))) in Hy as ->.
Qed.

(** X20. [replace] on the text of the return match rewrites the match
    itself: the first occurrence of [returnMatch[0]] in the generated source
    is where the pattern matched, so the source before and after the matched
    statement is kept, whatever the replacement. *)
Theorem replace_hits_return_match (generatedTsx repl : string)
    (m : MatchResult) :
  str_match returnRe generatedTsx = Some m ->
  exists rest,
    generatedTsx = m_before m +:+ m_0 m +:+ rest
    /\ replace generatedTsx (m_0 m) repl
       = m_before m
           +:+ getSubstitution (m_0 m) (m_before m) rest repl
           +:+ rest.
Proof.
  intros H. destruct (str_match_first_occurrence _ _ _ H) as (rest & Hs & Hf).
  exists rest. split; [exact Hs|]. unfold replace. by rewrite Hf.
Qed.

Lemma replace_hits_return_match_witness :
  exists rest,
    "a(); return (<b/>); return (<b/>);"
    = "a(); " +:+ "return (<b/>);" +:+ rest.
Proof.
  destruct (replace_hits_return_match
              "a(); return (<b/>); return (<b/>);" "x"
              {| m_before := "a(); "; m_0 := "return (<b/>);";
                 m_1 := Some "<b/>" |} eq_refl)
    as (rest & Hs & _).
  by exists rest.
Defined.

Lemma appendedReturn_lacks_dollar originalJsx manualJsx :
  lacks "$" originalJsx = true ->
  lacks "$" manualJsx = true ->
  lacks "$" (appendedReturn originalJsx manualJsx) = true.
Proof.
  intros Ho Hm. unfold appendedReturn. rewrite !lacks_app, Ho, Hm.
  reflexivity.
Qed.

(** X21. For a manual JSX that is not blank and a generated source the
    pattern matches, with no dollar sign in the original JSX or the manual
    JSX, the splice keeps the source before and after the matched return
    statement and puts in its place a return of the original JSX followed by
    the manual JSX: inside one [React.Fragment] when the original JSX starts
    with [<svg], as siblings after a comment line otherwise. *)
Theorem splice_replaces_return_statement (generatedTsx manualJsx : string)
    (m : MatchResult) :
  truthy (trim manualJsx) = true ->
  str_match returnRe generatedTsx = Some m ->
  lacks "$" (trim (group1 m)) = true ->
  lacks "$" manualJsx = true ->
  let originalJsx := trim (group1 m) in
  exists rest,
    generatedTsx = m_before m +:+ m_0 m +:+ rest
    /\ spliceManualJsx generatedTsx manualJsx
       = m_before m
           +:+ (if startsWith originalJsx "<svg"
                then fragmentReturn originalJsx manualJsx
                else appendedReturn originalJsx manualJsx)
           +:+ rest.
Proof.
  intros Hman Hm Ho Hd originalJsx.
  destruct (str_match_first_occurrence _ _ _ Hm) as (rest & Hs & Hf).
  exists rest. split; [exact Hs|].
  unfold spliceManualJsx. rewrite Hman, Hm. cbv zeta. fold originalJsx.
  unfold replace. rewrite Hf.
  destruct (startsWith originalJsx "<svg").
  - by rewrite getSubstitution_literal
      by (by apply fragmentReturn_lacks_dollar).
  - by rewrite getSubstitution_literal
      by (by apply appendedReturn_lacks_dollar).
Qed.

Lemma splice_replaces_return_statement_witness :
  exists rest,
    spliceManualJsx "f(); return (<div/>); g();" "<p/>"
    = "f(); " +:+ appendedReturn "<div/>" "<p/>" +:+ rest.
Proof.
  destruct (splice_replaces_return_statement
              "f(); return (<div/>); g();" "<p/>"
              {| m_before := "f(); "; m_0 := "return (<div/>);";
                 m_1 := Some "<div/>" |}
              eq_refl eq_refl eq_refl eq_refl)
    as (rest & _ & Hs).
  by exists rest.
Defined.

Lemma match_here_returnRe s m :
  match_here returnRe s = Some m ->
  exists w1 w2 g w3,
    all_in is_ws w1 = true /\ all_in is_ws w2 = true
    /\ all_in is_ws w3 = true
    /\ m_0 m = "return" +:+ w1 +:+ "(" +:+ w2 +:+ g +:+ w3 +:+ ");"
    /\ m_1 m = Some g.
Proof.
  unfold match_here, returnRe. cbn [rmatch]. intros H.
  destruct (drop_prefix "return" s) as [s1|] eqn:H1; [|done].
  apply drop_prefix_Some in H1.
  apply star_greedy_sound in H as (w1 & s2 & Hs1 & Hw1 & H).
  destruct (drop_prefix "(" s2) as [s3|] eqn:H2; [|done].
  apply drop_prefix_Some in H2.
  apply star_greedy_sound in H as (w2 & s4 & Hs3 & Hw2 & H).
  apply star_lazy_sound in H as (g & s5 & Hs4 & _ & H).
  apply star_greedy_sound in H as (w3 & s6 & Hs5 & Hw3 & H).
  destruct (drop_prefix ");" s6) as [s7|] eqn:H6; [|done].
  apply drop_prefix_Some in H6.
  assert (Hs : s = ("return" +:+ w1 +:+ "(" +:+ w2 +:+ g +:+ w3 +:+ ");")
                     +:+ s7).
  { rewrite H1, Hs1, H2, Hs3, Hs4, Hs5, H6. by rewrite !app_assoc. }
  injection H as <-. cbn [m_0 m_1].
  exists w1, w2, g, w3. repeat (split; [done|]). split.
  - rewrite Hs. apply consumed_app.
  - rewrite Hs4. by rewrite consumed_app.
Qed.

(** X22. What the return pattern matches is a whole statement: the word
    [return], white space, an opening parenthesis, white space, the captured
    text, white space, and [);]. Element 1 of the match is that captured
    text. *)
Theorem return_match_shape (s : string) (m : MatchResult) :
  str_match returnRe s = Some m ->
  exists w1 w2 g w3,
    all_in is_ws w1 = true /\ all_in is_ws w2 = true
    /\ all_in is_ws w3 = true
    /\ m_0 m = "return" +:+ w1 +:+ "(" +:+ w2 +:+ g +:+ w3 +:+ ");"
    /\ m_1 m = Some g.
Proof.
  revert m. induction s as [|c s IH]; intros m H.
  - discriminate H.
  - cbn [str_match] in H.
    destruct (match_here returnRe (String c s)) as [m'|] eqn:Hm.
    + simplify_eq. by apply match_here_returnRe in Hm.
    + destruct (str_match returnRe s) as [m'|] eqn:Hs; [|done].
      simpl in H. simplify_eq. exact (IH m' eq_refl).
Qed.

Lemma return_match_shape_witness :
  exists w1 w2 g w3,
    all_in is_ws w1 = true /\ all_in is_ws w2 = true
    /\ all_in is_ws w3 = true
    /\ "return  ( <svg/> );"
       = "return" +:+ w1 +:+ "(" +:+ w2 +:+ g +:+ w3 +:+ ");"
    /\ Some "<svg/>" = Some g.
Proof.
  exact (return_match_shape "x = 1; return  ( <svg/> );"
           {| m_before := "x = 1; "; m_0 := "return  ( <svg/> );";
              m_1 := Some "<svg/>" |} eq_refl).
Defined.

(** ** Style combine and the metadata comments *)

(** X23. The style combine drops nothing the user wrote: a base style or an
    additional style that is not blank occurs verbatim in the output. With
    both present the output is the optional header comment, the base
    section, the additional section and the responsive section, in this
    order; with both blank it is the header comment and the responsive
    section alone. *)
Theorem css_combine_keeps_user_text (now baseCss additionalCss : string)
    (fd : option FigmaData) :
  let out := combineCssCode now baseCss additionalCss fd in
  (truthy (trim baseCss) = true -> includes out baseCss = true)
  /\ (truthy (trim additionalCss) = true -> includes out additionalCss = true)
  /\ (truthy (trim baseCss) = true -> truthy (trim additionalCss) = true ->
      out = cssHeader now fd
              +:+ (baseStylesHeader +:+ LF +:+ baseCss +:+ LF +:+ LF)
              +:+ (additionalStylesHeader +:+ LF +:+ additionalCss
                     +:+ LF +:+ LF)
              +:+ responsiveUtilities)
  /\ (trim baseCss = "" -> trim additionalCss = "" ->
      out = cssHeader now fd +:+ responsiveUtilities).
Proof.
  intros out. subst out. unfold combineCssCode, baseSection, additionalSection.
  repeat split.
  - intros ->.
    assert (forall x y, ((cssHeader now fd
               +:+ baseStylesHeader +:+ LF +:+ baseCss +:+ LF +:+ LF)
              +:+ x) +:+ y
            = (cssHeader now fd +:+ baseStylesHeader +:+ LF)
                +:+ baseCss +:+ (LF +:+ LF +:+ x +:+ y)) as ->
      by (intros; by rewrite !app_assoc).
    apply includes_occurs.
  - intros ->.
    assert (forall x, (x +:+ additionalStylesHeader +:+ LF +:+ additionalCss
                         +:+ LF +:+ LF) +:+ responsiveUtilities
            = (x +:+ additionalStylesHeader +:+ LF)
                +:+ additionalCss +:+ (LF +:+ LF +:+ responsiveUtilities))
      as -> by (intros; by rewrite !app_assoc).
    apply includes_occurs.
  - intros -> ->. by rewrite !app_assoc.
  - intros -> ->. change (truthy "") with false. cbv iota.
    by rewrite !app_empty_r.
Qed.

Lemma css_combine_keeps_user_text_witness :
  includes (combineCssCode "T" ".a {}" "" None) ".a {}" = true.
Proof.
  exact (proj1 (css_combine_keeps_user_text "T" ".a {}" "" None) eq_refl).
Defined.

(** X24. Missing document details fall back to fixed texts in both
    comments: without a file name (no file, no name, or an empty name) the
    comments read [Unknown], and without a component or style count, or with
    a count of zero, the TSX comment reads [0]. *)
Theorem metadata_comment_fallbacks (now : string) (fd : FigmaData) :
  fileName fd = None \/ fileName fd = Some "" ->
  mbind componentCount (metadata fd) = None
    \/ mbind componentCount (metadata fd) = Some 0%N ->
  mbind styleCount (metadata fd) = None
    \/ mbind styleCount (metadata fd) = Some 0%N ->
  tsxMetadata now fd
  = "/*" +:+ LF +:+
    " * Generated from Figma Design" +:+ LF +:+
    " * File: Unknown" +:+ LF +:+
    " * Generated: " +:+ now +:+ LF +:+
    " * Components: 0" +:+ LF +:+
    " * Styles: 0" +:+ LF +:+
    " */" +:+ LF +:+ LF
  /\ cssHeader now (Some fd)
     = "/*" +:+ LF +:+
       " * Styles for Figma Component: Unknown" +:+ LF +:+
       " * Generated: " +:+ now +:+ LF +:+
       " */" +:+ LF +:+ LF.
Proof.
  intros Hn Hc Hs. unfold tsxMetadata, cssHeader.
  assert (orUnknown (fileName fd) = "Unknown") as ->
    by (by destruct Hn as [-> | ->]).
  assert (orZero (mbind componentCount (metadata fd)) = "0") as ->
    by (by destruct Hc as [-> | ->]).
  assert (orZero (mbind styleCount (metadata fd)) = "0") as ->
    by (by destruct Hs as [-> | ->]).
  split; reflexivity.
Qed.

Lemma metadata_comment_fallbacks_witness :
  cssHeader "T" (Some bareData)
  = "/*" +:+ LF +:+
    " * Styles for Figma Component: Unknown" +:+ LF +:+
    " * Generated: " +:+ "T" +:+ LF +:+
    " */" +:+ LF +:+ LF.
Proof.
  exact (proj2 (metadata_comment_fallbacks "T" bareData
                  (or_introl eq_refl) (or_introl eq_refl)
                  (or_introl eq_refl))).
Defined.

(** ** The automatic chain when the conversion fails *)

(** X25. When stage 1 fetches everything and the extracted text is not
    blank but the conversion fails (the text has no SVG element, or the
    transformer throws), the connect action ends with stage 1 in [success]
    and stage 2 in [error]; the bundle and the extracted text are stored,
    the generated TSX is untouched, and the only error entry is the step2
    message. *)
Theorem connect_conversion_failure (env : Env) (s : FigmaStepsState)
    (fid : string) (figmaFile : FigmaFile) (meta : FileMetadata)
    (comps stys svg : string) (e : Thrown) :
  stage1Fetches env s fid figmaFile meta comps stys ->
  extractSVGFromFigma env (Some figmaFile) = inr svg ->
  truthy (trim svg) = true ->
  (hasSvgElement svg = false
   /\ e = ErrorObj "Invalid SVG: No SVG elements found in the provided code")
  \/ (hasSvgElement svg = true /\ transformer env svg = inl e) ->
  let s' := runAction s (DoConnectToFigma env) in
  stepStatus s'
  = {| step1 := success; step2 := error;
       step3 := step3 (stepStatus s); step4 := step4 (stepStatus s) |}
  /\ errors (uiState s') = {[ "step2" := svgErrorMessage e ]}
  /\ figmaData (stepData s')
     = Some (completeData figmaFile meta comps stys fid (clock env 0))
  /\ svgCode (stepData s') = svg
  /\ generatedTsxCode (stepData s') = generatedTsxCode (stepData s).
Proof.
  intros H1 Hx Ht Hfail s'. subst s'. unfold runAction. simpl perform.
  rewrite (connectToFigma_success_dispatched _ _ _ _ _ _ _ H1).
  rewrite autoGenerateSvg_dispatched. simpl file. rewrite Hx.
  assert (Hsvg : orElse (Some svg) (svgCode (stepData initialState)) = svg)
    by (apply orElse_truthy, truthy_of_trim, Ht).
  rewrite generateSvgCode_dispatched; rewrite Hsvg; [|exact Ht].
  destruct Hfail as [[Hh ->] | [Hh Htr]]; rewrite Hh; [|rewrite Htr];
    simpl; repeat split.
Qed.

Lemma connect_conversion_failure_witness :
  step2 (stepStatus
           (runAction readyState
              (DoConnectToFigma (stage2Env (inr "<div/>") (inr "unused")))))
  = error.
Proof.
  assert (H1 : stage1Fetches (stage2Env (inr "<div/>") (inr "unused"))
                 readyState "abc" sampleFile sampleMetadata "[]" "[]").
  { repeat split; try reflexivity. eexists. repeat split; reflexivity. }
  exact (f_equal step2 (proj1
    (connect_conversion_failure _ readyState _ _ _ _ _ "<div/>" _
       H1 eq_refl eq_refl (or_introl (conj eq_refl eq_refl))))).
Defined.
